(** * Background verification (PartB.py): aggregation, classification, comparison

    A shallow embedding of [src/PartB.py].  Python values are modelled as
    follows.
    - [str]: a Rocq [string]; the case mappings ([str.lower], [str.title])
      are the ASCII ones, so the model covers ASCII text (the rule table, the
      report constants and the detector's class table are ASCII).
    - [int]: [Z].
    - [float]: a binary64 primitive float; [+] and [/] are the IEEE operations,
      [sum] folds from the left starting at zero, [round(x, 2)] is the
      correctly rounded decimal rounding of CPython.
    - [dict] (and [defaultdict]): an association list kept in insertion order.
    - exceptions: an error result carrying the exception class and its text.
    - [print]: a list of printed lines threaded through the calls.
    - the network and the detector: the outcome of each external call is an
      input of the model.
    - for [main]: the model loader, the disk and [json.dumps] are inputs of
      the model too; files are a dictionary from path to text. *)

From Stdlib Require Import ZArith List String Ascii Bool Lia.
From Stdlib Require Import DecimalString.
From Stdlib Require Import PrimFloat FloatOps SpecFloat.
Import ListNotations.

Local Open Scope string_scope.
Local Open Scope Z_scope.

#[local] Set Warnings "-register-all,-inexact-float".

Set Implicit Arguments.

(** ** Strings *)

Module PyStr.

Definition is_upper (c : ascii) : bool :=
  let n := nat_of_ascii c in (Nat.leb 65 n && Nat.leb n 90)%bool.

Definition is_lower (c : ascii) : bool :=
  let n := nat_of_ascii c in (Nat.leb 97 n && Nat.leb n 122)%bool.

Definition is_cased (c : ascii) : bool := (is_upper c || is_lower c)%bool.

Definition lower_char (c : ascii) : ascii :=
  if is_upper c then ascii_of_nat (nat_of_ascii c + 32) else c.

Definition upper_char (c : ascii) : ascii :=
  if is_lower c then ascii_of_nat (nat_of_ascii c - 32) else c.

(** [s.lower()] *)
Fixpoint lower (s : string) : string :=
  match s with
  | EmptyString => EmptyString
  | String c r => String (lower_char c) (lower r)
  end.

(** [s.title()]: a character that follows a cased character is lowered,
    any other character is title-cased. *)
Fixpoint title_from (previous_is_cased : bool) (s : string) : string :=
  match s with
  | EmptyString => EmptyString
  | String c r =>
      String (if previous_is_cased then lower_char c else upper_char c)
             (title_from (is_cased c) r)
  end.

Definition title (s : string) : string := title_from false s.

(** [str(n)] for an [int]. *)
Definition str_of_int (n : Z) : string := NilZero.string_of_int (Z.to_int n).

(** Truth value of a string: the empty string is false. *)
Definition truthy (s : string) : bool :=
  match s with EmptyString => false | String _ _ => true end.

End PyStr.

(** ** Floats *)

Module PyFloat.

(** [float(n)] for an [int]: the nearest binary64 number. *)
Definition of_int (n : Z) : float := SF2Prim (binary_normalize prec emax n 0 false).

(** [sum(xs)] over floats: left to right, starting from [0].  (CPython from
    3.12 on also carries a compensation term for the rounding errors; no
    property below depends on how the additions round.) *)
Definition sum (xs : list float) : float := fold_left PrimFloat.add xs zero.

(** Integer nearest to [num / den] ([den > 0]), ties to even. *)
Definition div_half_even (num den : Z) : Z :=
  let q := num / den in
  let r := num mod den in
  match Z.compare (2 * r) den with
  | Lt => q
  | Gt => q + 1
  | Eq => if Z.even q then q else q + 1
  end.

(** The binary64 number nearest to [n / 100] for [n > 0], with sign [s]:
    the quotient is taken with 64 extra bits and a sticky bit, and then
    rounded to nearest even. *)
Definition nearest_hundredth (s : bool) (n : Z) : float :=
  let scaled := Z.shiftl n 64 in
  let m := scaled / 100 in
  let sticky := if Z.eqb (scaled mod 100) 0 then 0 else 1 in
  let r := SF2Prim (binary_normalize prec emax (2 * m + sticky) (-65) false) in
  if s then PrimFloat.opp r else r.

(** [round(x, 2)]: not-a-number, infinities and zeros round to themselves;
    otherwise the exact value [m * 2^e] is rounded to the nearest multiple
    of [1/100] (ties to even), and the result is the binary64 number nearest
    to that decimal. *)
Definition round2 (x : float) : float :=
  match Prim2SF x with
  | S754_finite s m e =>
      if Z.leb 0 e then x
      else
        let n := div_half_even (100 * Zpos m) (Z.shiftl 1 (- e)) in
        if Z.eqb n 0 then (if s then neg_zero else zero)
        else nearest_hundredth s n
  | _ => x
  end.

End PyFloat.

(** ** Dictionaries in insertion order *)

Module PyDict.
Section Dict.
Variable V : Type.

Definition t := list (string * V).

(** [d.get(k)] *)
Fixpoint get (k : string) (d : t) : option V :=
  match d with
  | [] => None
  | (k', v) :: r => if String.eqb k k' then Some v else get k r
  end.

(** [k in d] *)
Definition contains (k : string) (d : t) : bool :=
  match get k d with Some _ => true | None => false end.

(** [d.get(k, dflt)]; also [d[k]] on a [defaultdict] whose factory
    yields [dflt], as far as the value read is concerned. *)
Definition get_default (k : string) (dflt : V) (d : t) : V :=
  match get k d with Some v => v | None => dflt end.

(** [d[k] = v]: a present key keeps its position, a new key goes last. *)
Fixpoint set (k : string) (v : V) (d : t) : t :=
  match d with
  | [] => [(k, v)]
  | (k', v') :: r =>
      if String.eqb k k' then (k, v) :: r else (k', v') :: set k v r
  end.

Definition keys (d : t) : list string := map fst d.

(** [d.items()] *)
Definition items (d : t) : list (string * V) := d.
End Dict.
End PyDict.

(** ** Exceptions and printed output *)

Inductive exn_class :=
| HTTPError | ConnectionError | Timeout | JSONDecodeError | OtherRequestException
| KeyError | TypeError | ZeroDivisionError | OtherException.

(** [isinstance(e, requests.exceptions.RequestException)] *)
Definition is_request_exception (c : exn_class) : bool :=
  match c with
  | HTTPError | ConnectionError | Timeout | JSONDecodeError | OtherRequestException => true
  | KeyError | TypeError | ZeroDivisionError | OtherException => false
  end.

Record exn := { exn_cls : exn_class; exn_msg : string }.

Inductive outcome (A : Type) :=
| Return (a : A)
| Raise (e : exn).
Arguments Return {A} a.
Arguments Raise {A} e.

(** A computation yields a value or raises, and prints lines meanwhile. *)
Definition io (A : Type) : Type := (outcome A * list string)%type.

Definition ret {A} (a : A) : io A := (Return a, []).
Definition raise {A} (e : exn) : io A := (Raise e, []).
Definition lift {A} (o : outcome A) : io A := (o, []).
Definition print (line : string) : io unit := (Return tt, [line]).

Definition bind {A B} (m : io A) (f : A -> io B) : io B :=
  match m with
  | (Return a, out) => let (r, out') := f a in (r, (out ++ out')%list)
  | (Raise e, out) => (Raise e, out)
  end.

Definition obind {A B} (m : outcome A) (f : A -> outcome B) : outcome B :=
  match m with
  | Return a => f a
  | Raise e => Raise e
  end.

Declare Scope io_scope.
Delimit Scope io_scope with io.
Notation "x <- m ;; k" := (bind m (fun x => k))
  (at level 61, m at next level, right associativity) : io_scope.
Notation "m ;; k" := (bind m (fun _ => k))
  (at level 61, right associativity) : io_scope.
Notation "x <-? m ;; k" := (obind m (fun x => k))
  (at level 61, m at next level, right associativity) : io_scope.
Local Open Scope io_scope.

(** Sequential evaluation of a comprehension whose element may raise. *)
Fixpoint omap {A B} (f : A -> outcome B) (l : list A) : outcome (list B) :=
  match l with
  | [] => Return []
  | a :: r => b <-? f a ;; bs <-? omap f r ;; Return (b :: bs)
  end.

(** ** JSON values and HTTP replies *)

Inductive json :=
| JNull
| JBool (b : bool)
| JInt (n : Z)
| JFloat (x : float)
| JStr (s : string)
| JList (l : list json)
| JDict (d : list (string * json)).

(** [type(v).__name__] *)
Definition type_name (v : json) : string :=
  match v with
  | JNull => "NoneType"
  | JBool _ => "bool"
  | JInt _ => "int"
  | JFloat _ => "float"
  | JStr _ => "str"
  | JList _ => "list"
  | JDict _ => "dict"
  end.

(** [v[k]] with a string key [k]: only a [dict] holding [k] answers. *)
Definition getitem (v : json) (k : string) : outcome json :=
  match v with
  | JDict d =>
      match PyDict.get k d with
      | Some x => Return x
      | None => Raise {| exn_cls := KeyError; exn_msg := "'" ++ k ++ "'" |}
      end
  | JList _ =>
      Raise {| exn_cls := TypeError;
               exn_msg := "list indices must be integers or slices, not str" |}
  | JStr _ =>
      Raise {| exn_cls := TypeError; exn_msg := "string indices must be integers" |}
  | _ =>
      Raise {| exn_cls := TypeError;
               exn_msg := "'" ++ type_name v ++ "' object is not subscriptable" |}
  end.

(** [for x in v]: a list yields its elements, a dict its keys, a string its
    characters; nothing else is iterable. *)
Definition iterate (v : json) : outcome (list json) :=
  match v with
  | JList l => Return l
  | JDict d => Return (map (fun kv => JStr (fst kv)) d)
  | JStr s => Return (map (fun c => JStr (String c EmptyString)) (list_ascii_of_string s))
  | _ =>
      Raise {| exn_cls := TypeError;
               exn_msg := "'" ++ type_name v ++ "' object is not iterable" |}
  end.

(** The body of a reply read as JSON: a value, or the decoder's complaint. *)
Inductive decoded :=
| Json (v : json)
| NotJson (complaint : string).

(** A reply: its status code and reason phrase, the URL it answers, its raw
    body, and the body as the JSON decoder reads it. *)
Record Response := {
  status_code : Z;
  reason : string;
  url : string;
  content : string;
  decoded_body : decoded
}.

(** [response.raise_for_status()]: client and server errors raise. *)
Definition raise_for_status (r : Response) : outcome unit :=
  if ((400 <=? status_code r) && (status_code r <? 500))%bool then
    Raise {| exn_cls := HTTPError;
             exn_msg := PyStr.str_of_int (status_code r) ++ " Client Error: "
                        ++ reason r ++ " for url: " ++ url r |}
  else if ((500 <=? status_code r) && (status_code r <? 600))%bool then
    Raise {| exn_cls := HTTPError;
             exn_msg := PyStr.str_of_int (status_code r) ++ " Server Error: "
                        ++ reason r ++ " for url: " ++ url r |}
  else Return tt.

(** [response.json()] *)
Definition response_json (r : Response) : outcome json :=
  match decoded_body r with
  | Json v => Return v
  | NotJson complaint => Raise {| exn_cls := JSONDecodeError; exn_msg := complaint |}
  end.

(** The network: what [requests.get] does for the search request (given the
    authorization header, the query and the page size) and for the image
    request of frame [i] at a URL.  Either call returns a reply or raises. *)
Record Requests := {
  get_search : string -> string -> Z -> outcome Response;
  get_image : Z -> string -> outcome Response
}.

(** ** The detector *)

Record Box := { cls : Z; conf : float }.

(** [model.predict] returns a list of per-image results, each with its boxes;
    [model.names] maps class ids to labels. *)
Record YOLO := {
  predict : string -> float -> outcome (list (list Box));
  names : list (Z * string)
}.

Fixpoint names_get (class_id : Z) (tbl : list (Z * string)) : outcome string :=
  match tbl with
  | [] => Raise {| exn_cls := KeyError; exn_msg := PyStr.str_of_int class_id |}
  | (k, v) :: r => if Z.eqb class_id k then Return v else names_get class_id r
  end.

(** ** [fetch_image_urls_from_unsplash] *)

(** The access key as shipped; the source asks for it to be replaced, so the
    key is an argument of the model. *)
Definition placeholder_access_key : string := "YOUR_UNSPLASH_ACCESS_KEY".

(** The body of the [try] block: request, status check, JSON decoding and
    the comprehension over [data['results']]. *)
Definition search_image_urls (net : Requests) (access_key query : string) (count : Z)
  : outcome (list json) :=
  response <-? get_search net ("Client-ID " ++ access_key) query count ;;
  _ <-? raise_for_status response ;;
  data <-? response_json response ;;
  results <-? getitem data "results" ;;
  elements <-? iterate results ;;
  omap (fun result => urls <-? getitem result "urls" ;; getitem urls "regular") elements.

Definition fetch_image_urls_from_unsplash
    (net : Requests) (access_key query : string) (count : Z) : io (list json) :=
  if String.eqb access_key placeholder_access_key then
    print ("Error: Please replace 'YOUR_UNSPLASH_ACCESS_KEY' with your actual "
           ++ "Unsplash API key.") ;;
    ret []
  else
    match search_image_urls net access_key query count with
    | Return image_urls => ret image_urls
    | Raise e =>
        if is_request_exception (exn_cls e) then
          print ("Error fetching images from Unsplash for query '" ++ query ++ "': "
                 ++ exn_msg e) ;;
          ret []
        else raise e
    end.

(** ** [analyze_video_background] *)

Definition env_rules : list (string * list string) :=
  [ ("Home", ["bed"; "sofa"; "tv"; "refrigerator"; "microwave"; "chair"; "dining table"]);
    ("Office", ["desk"; "computer"; "whiteboard"; "chair"; "meeting table"]);
    ("Shop", ["shelf"; "counter"; "bottled products"; "packaged boxes"; "refrigerator"]) ].

(** The two accumulators of one scenario. *)
Record Stats := {
  all_detected_items : PyDict.t (list float);
  all_detected_counts : PyDict.t Z
}.

Definition empty_stats : Stats :=
  {| all_detected_items := []; all_detected_counts := [] |}.

(** [all_detected_items[item_name].append(confidence)] and
    [all_detected_counts[item_name] += 1]. *)
Definition record_detection (st : Stats) (item_name : string) (confidence : float) : Stats :=
  {| all_detected_items :=
       PyDict.set item_name
         (PyDict.get_default item_name [] (all_detected_items st) ++ [confidence])%list
         (all_detected_items st);
     all_detected_counts :=
       PyDict.set item_name
         (PyDict.get_default item_name 0 (all_detected_counts st) + 1)
         (all_detected_counts st) |}.

(** [for box in results[0].boxes: ...] *)
Fixpoint record_boxes (model : YOLO) (boxes : list Box) (st : Stats) : outcome Stats :=
  match boxes with
  | [] => Return st
  | box :: rest =>
      let class_id := cls box in
      let confidence := conf box in
      item_name <-? names_get class_id (names model) ;;
      record_boxes model rest (record_detection st item_name confidence)
  end.

(** The body of the per-frame [try] block. *)
Definition fetch_and_predict (net : Requests) (model : YOLO) (i : Z) (image_url : string)
  : outcome (list (list Box)) :=
  response <-? get_image net i image_url ;;
  _ <-? raise_for_status response ;;
  let image_data := content response in
  predict model image_data 0.5%float.

(** [for i, image_url in enumerate(image_urls): ...]; [n] is
    [len(image_urls)] of the whole call, [i] the index of the head. *)
Fixpoint frames_loop (net : Requests) (model : YOLO) (n i : Z)
    (image_urls : list string) (st : Stats) : io Stats :=
  match image_urls with
  | [] => ret st
  | image_url :: rest =>
      print ("  Processing frame " ++ PyStr.str_of_int (i + 1) ++ "/"
             ++ PyStr.str_of_int n ++ ": " ++ image_url) ;;
      match fetch_and_predict net model i image_url with
      | Raise e =>
          if is_request_exception (exn_cls e) then
            print ("  Error fetching image from URL " ++ image_url ++ ": " ++ exn_msg e) ;;
            frames_loop net model n (i + 1) rest st
          else raise e
      | Return results =>
          match results with
          | boxes :: _ =>
              st' <- lift (record_boxes model boxes st) ;;
              frames_loop net model n (i + 1) rest st'
          | [] => frames_loop net model n (i + 1) rest st
          end
      end
  end.

(** [sum] over [int]s. *)
Definition int_sum (xs : list Z) : Z := fold_left Z.add xs 0.

(** [[item for item in items if item in all_detected_counts]] *)
Definition common_items_of (st : Stats) (items : list string) : list string :=
  filter (fun item => PyDict.contains item (all_detected_counts st)) items.

(** The classification loop over an ordered rule table; the result is
    [(detected_environment, environment_confidence)]. *)
Fixpoint classify (rules : list (string * list string)) (st : Stats) : string * float :=
  match rules with
  | [] => ("Uncategorized", zero)
  | (env, items) :: rest =>
      let common_items := common_items_of st items in
      match common_items with
      | [] => classify rest st
      | _ :: _ =>
          let total_confidence :=
            PyFloat.sum
              (map (fun item =>
                      PyFloat.sum (PyDict.get_default item [] (all_detected_items st)))
                   common_items) in
          let total_count :=
            int_sum (map (fun item => PyDict.get_default item 0 (all_detected_counts st))
                         common_items) in
          (env,
           if 0 <? total_count
           then PyFloat.round2 (total_confidence / PyFloat.of_int total_count)%float
           else zero)
      end
  end.

(** The declared manifest: [environment] is [None] when the key is absent,
    [assets] is [None] when the key is absent. *)
Record DeclaredManifest := {
  environment : option string;
  assets : option (PyDict.t Z)
}.

Definition pass : string := "Pass".
Definition review_required : string := "Review Required".

Definition environment_mismatch (declared_env detected_environment : string) : string :=
  "Declared environment '" ++ declared_env ++ "' does not match detected environment '"
  ++ detected_environment ++ "'".

Definition asset_mismatch (asset : string) (declared_count detected_count : Z) : string :=
  "Declared '" ++ asset ++ ": " ++ PyStr.str_of_int declared_count ++ "' but detected '"
  ++ asset ++ ": " ++ PyStr.str_of_int detected_count ++ "'".

(** Mismatch 1: [if declared_env and declared_env.lower() !=
    detected_environment.lower(): ...] on the state [(mismatches, risk_flag)]. *)
Definition check_environment (declared_env : option string) (detected_environment : string)
    (acc : list string * string) : list string * string :=
  match declared_env with
  | Some e =>
      if (PyStr.truthy e
          && negb (String.eqb (PyStr.lower e) (PyStr.lower detected_environment)))%bool
      then ((fst acc ++ [environment_mismatch e detected_environment])%list, review_required)
      else acc
  | None => acc
  end.

(** Mismatch 2: one iteration of the loop over [declared_assets.items()]. *)
Definition check_asset (st : Stats) (acc : list string * string) (entry : string * Z)
  : list string * string :=
  let (asset, declared_count) := entry in
  let detected_count := PyDict.get_default asset 0 (all_detected_counts st) in
  if negb (declared_count =? detected_count)
  then ((fst acc ++ [asset_mismatch asset declared_count detected_count])%list,
        review_required)
  else acc.

Definition compare_declared (declared_data : DeclaredManifest)
    (detected_environment : string) (st : Stats) : list string * string :=
  let mismatches : list string := [] in
  let risk_flag := pass in
  let declared_env := environment declared_data in
  let declared_assets := match assets declared_data with Some a => a | None => [] end in
  fold_left (check_asset st) (PyDict.items declared_assets)
            (check_environment declared_env detected_environment (mismatches, risk_flag)).

Record ObjectRow := {
  item : string;
  count : Z;
  avg_confidence : float
}.

Record AnalysisResults := {
  detected_environment : string;
  environment_confidence : float;
  detected_objects : list ObjectRow
}.

Record Report := {
  declared_data : DeclaredManifest;
  analysis_results : AnalysisResults;
  mismatch_highlight : list string;
  risk_flag : string
}.

(** [x / n] for a float [x] and an int [n]. *)
Definition truediv (x : float) (n : Z) : outcome float :=
  if n =? 0
  then Raise {| exn_cls := ZeroDivisionError; exn_msg := "float division by zero" |}
  else Return (x / PyFloat.of_int n)%float.

(** [sum(confidences) / len(confidences)]: the sum of an empty list is the
    int [0], and [0 / 0] raises. *)
Definition mean (confidences : list float) : outcome float :=
  match confidences with
  | [] => Raise {| exn_cls := ZeroDivisionError; exn_msg := "division by zero" |}
  | _ :: _ => truediv (PyFloat.sum confidences) (Z.of_nat (List.length confidences))
  end.

(** One entry of the [detected_objects] comprehension. *)
Definition object_row (st : Stats) (entry : string * list float) : outcome ObjectRow :=
  let (item, confidences) := entry in
  average <-? mean confidences ;;
  Return {| item := PyStr.title item;
            count := PyDict.get_default item 0 (all_detected_counts st);
            avg_confidence := PyFloat.round2 average |}.

(** Everything after the frame loop: classification, comparison, report. *)
Definition build_report (rules : list (string * list string))
    (declared_data : DeclaredManifest) (st : Stats) : outcome Report :=
  let '(detected_environment, environment_confidence) := classify rules st in
  let '(mismatches, risk_flag) := compare_declared declared_data detected_environment st in
  rows <-? omap (object_row st) (PyDict.items (all_detected_items st)) ;;
  Return {| declared_data := declared_data;
            analysis_results :=
              {| detected_environment := detected_environment;
                 environment_confidence := environment_confidence;
                 detected_objects := rows |};
            mismatch_highlight := mismatches;
            risk_flag := risk_flag |}.

Definition newline : string := String (ascii_of_nat 10) EmptyString.

(** The analysis over an arbitrary ordered rule table. *)
Definition analyze_with (rules : list (string * list string))
    (net : Requests) (model : YOLO) (image_urls : list string)
    (declared_data : DeclaredManifest) : io Report :=
  let n := Z.of_nat (List.length image_urls) in
  print (newline ++ "Analyzing video background with " ++ PyStr.str_of_int n
         ++ " frames...") ;;
  st <- frames_loop net model n 0 image_urls empty_stats ;;
  lift (build_report rules declared_data st).

Definition analyze_video_background (net : Requests) (model : YOLO)
    (image_urls : list string) (declared_data : DeclaredManifest) : io Report :=
  analyze_with env_rules net model image_urls declared_data.

(** ** The detection stream of a scenario

    The detections of a run, frame after frame and box after box, as the
    reference against which the accumulators and the report are specified. *)

(** The labelled boxes of one frame. *)
Definition label_boxes (model : YOLO) (boxes : list Box) : outcome (list (string * float)) :=
  omap (fun box => item_name <-? names_get (cls box) (names model) ;;
                   Return (item_name, conf box)) boxes.

(** The detections a frame contributes: those of the first result of a
    successful [try] block, none otherwise. *)
Definition frame_detections (net : Requests) (model : YOLO) (i : Z) (image_url : string)
  : list (string * float) :=
  match fetch_and_predict net model i image_url with
  | Return (boxes :: _) =>
      match label_boxes model boxes with
      | Return dets => dets
      | Raise _ => []
      end
  | _ => []
  end.

Fixpoint detection_stream (net : Requests) (model : YOLO) (i : Z) (image_urls : list string)
  : list (string * float) :=
  match image_urls with
  | [] => []
  | image_url :: rest =>
      (frame_detections net model i image_url
       ++ detection_stream net model (i + 1) rest)%list
  end.

(** The confidences recorded for a label, in stream order. *)
Definition recorded (label : string) (dets : list (string * float)) : list float :=
  map snd (filter (fun d => String.eqb label (fst d)) dets).

Definition detected_count (label : string) (dets : list (string * float)) : Z :=
  Z.of_nat (List.length (recorded label dets)).

Definition detected (label : string) (dets : list (string * float)) : bool :=
  existsb (fun d => String.eqb label (fst d)) dets.

(** A label set intersects the detected labels. *)
Definition intersects (items : list string) (dets : list (string * float)) : bool :=
  existsb (fun item => detected item dets) items.

(** The intersecting labels of a rule, in rule order. *)
Definition intersection (items : list string) (dets : list (string * float)) : list string :=
  filter (fun item => detected item dets) items.

Definition nonempty {A} (l : list A) : option (list A) :=
  match l with [] => None | _ :: _ => Some l end.

(** The accumulators hold exactly the detections [dets]. *)
Record accumulates (st : Stats) (dets : list (string * float)) : Prop := {
  acc_items : forall label,
    PyDict.get label (all_detected_items st) = nonempty (recorded label dets);
  acc_counts : forall label,
    PyDict.get label (all_detected_counts st) =
    option_map (fun cs => Z.of_nat (List.length cs)) (nonempty (recorded label dets));
  acc_nodup : NoDup (PyDict.keys (all_detected_items st))
}.

(** The mismatch strings of the asset loop, in manifest order. *)
Definition asset_mismatches (declared_assets : list (string * Z))
    (dets : list (string * float)) : list string :=
  map (fun entry => asset_mismatch (fst entry) (snd entry) (detected_count (fst entry) dets))
      (filter (fun entry => negb (snd entry =? detected_count (fst entry) dets))
              declared_assets).

Definition declared_assets_of (declared : DeclaredManifest) : list (string * Z) :=
  match assets declared with Some a => a | None => [] end.

(** The mismatch strings of the environment check: one when a non-empty
    declared environment differs, case-insensitively, from the detected one. *)
Definition environment_mismatches (declared : DeclaredManifest)
    (detected_environment : string) : list string :=
  match environment declared with
  | Some e =>
      if (PyStr.truthy e
          && negb (String.eqb (PyStr.lower e) (PyStr.lower detected_environment)))%bool
      then [environment_mismatch e detected_environment]
      else []
  | None => []
  end.

(** The row of a detected label. *)
Definition object_row_of (dets : list (string * float)) (label : string) : ObjectRow :=
  {| item := PyStr.title label;
     count := detected_count label dets;
     avg_confidence :=
       PyFloat.round2 (PyFloat.sum (recorded label dets)
                       / PyFloat.of_int (detected_count label dets))%float |}.

(** The weighted mean confidence over the intersecting labels of a rule. *)
Definition weighted_mean (items : list string) (dets : list (string * float)) : float :=
  let common := intersection items dets in
  PyFloat.round2
    (PyFloat.sum (map (fun item => PyFloat.sum (recorded item dets)) common)
     / PyFloat.of_int (int_sum (map (fun item => detected_count item dets) common)))%float.

(** The first rule, in table order, whose label set intersects the detected
    labels. *)
Definition first_match (rules : list (string * list string))
    (dets : list (string * float)) : option (string * list string) :=
  find (fun rule => intersects (snd rule) dets) rules.

(** Every frame of the list either yields boxes of known classes or raises
    a request exception ([i] is the index of the head). *)
Fixpoint frames_recoverable (net : Requests) (model : YOLO) (i : Z)
    (image_urls : list string) : bool :=
  match image_urls with
  | [] => true
  | image_url :: rest =>
      (match fetch_and_predict net model i image_url with
       | Raise e => is_request_exception (exn_cls e)
       | Return [] => true
       | Return (boxes :: _) =>
           match label_boxes model boxes with Return _ => true | Raise _ => false end
       end
       && frames_recoverable net model (i + 1) rest)%bool
  end.

(** ** Sample scenarios *)

Module Example.

Definition class_table : list (Z * string) :=
  [(56, "chair"); (57, "sofa"); (72, "refrigerator"); (80, "shelf")].

(** A detector that knows four images and fails on a corrupt one. *)
Definition detector : YOLO :=
  {| predict := fun image_data _ =>
       if String.eqb image_data "living room" then
         Return [[ {| cls := 57; conf := 0.9 |}; {| cls := 56; conf := 0.8 |} ]]
       else if String.eqb image_data "dining room" then
         Return [[ {| cls := 56; conf := 0.7 |} ]]
       else if String.eqb image_data "kitchen" then
         Return [[ {| cls := 72; conf := 0.6 |} ]]
       else if String.eqb image_data "store" then
         Return [[ {| cls := 80; conf := 0.9 |} ]]
       else if String.eqb image_data "corrupt" then
         Raise {| exn_cls := OtherException; exn_msg := "cannot identify image file" |}
       else Return [[]];
     names := class_table |}.

(** A network that serves every image under its own URL, except that
    [gone] cannot be reached; the search reply is the JSON object [{}]. *)
Definition net : Requests :=
  {| get_search := fun _ _ _ =>
       Return {| status_code := 200; reason := "OK";
                 url := "https://api.unsplash.com/search/photos";
                 content := "{}"; decoded_body := Json (JDict []) |};
     get_image := fun _ image_url =>
       if String.eqb image_url "gone" then
         Raise {| exn_cls := ConnectionError; exn_msg := "connection refused" |}
       else Return {| status_code := 200; reason := "OK"; url := image_url;
                      content := image_url;
                      decoded_body := NotJson "Expecting value" |} |}.

Definition home_frames : list string := ["living room"; "gone"; "dining room"].

Definition declared_home : DeclaredManifest :=
  {| environment := Some "Home"; assets := Some [("sofa", 1); ("chair", 2)] |}.

Definition declared_shop : DeclaredManifest :=
  {| environment := Some "SHOP"; assets := Some [("refrigerator", 2); ("sofa", 1)] |}.

Definition declared_assets_only : DeclaredManifest :=
  {| environment := None; assets := Some [("chair", 2); ("counter", 1)] |}.

Definition reordered_rules : list (string * list string) :=
  [ ("Home", ["bed"; "sofa"; "tv"; "refrigerator"; "microwave"; "chair"; "dining table"]);
    ("Shop", ["shelf"; "counter"; "bottled products"; "packaged boxes"; "refrigerator"]);
    ("Office", ["desk"; "computer"; "whiteboard"; "chair"; "meeting table"]) ].

End Example.

(** ** Reference functions for the accumulators and the printed lines *)

(** The accumulators after the detections [dets], starting from [st]. *)
Definition accumulate (dets : list (string * float)) (st : Stats) : Stats :=
  fold_left (fun st d => record_detection st (fst d) (snd d)) dets st.

(** The labels of a list in the order of their first occurrence. *)
Definition first_seen (labels : list string) : list string :=
  fold_left (fun seen label =>
               if existsb (String.eqb label) seen then seen else (seen ++ [label])%list)
            labels [].

(** The exception of the first frame that cannot be skipped: its [try]
    block raised an exception that is not a request exception, or one of its
    boxes has a class id missing from [model.names]. *)
Fixpoint first_failure (net : Requests) (model : YOLO) (i : Z) (image_urls : list string)
  : option exn :=
  match image_urls with
  | [] => None
  | image_url :: rest =>
      match fetch_and_predict net model i image_url with
      | Raise e =>
          if is_request_exception (exn_cls e)
          then first_failure net model (i + 1) rest
          else Some e
      | Return [] => first_failure net model (i + 1) rest
      | Return (boxes :: _) =>
          match label_boxes model boxes with
          | Return _ => first_failure net model (i + 1) rest
          | Raise e => Some e
          end
      end
  end.

(** The frames of a call with their indices. *)
Definition enumerate (image_urls : list string) : list (Z * string) :=
  combine (map Z.of_nat (seq 0 (List.length image_urls))) image_urls.

(** The lines printed for frame [i] of [n] in a run that reaches its end. *)
Definition frame_lines (net : Requests) (model : YOLO) (n : Z) (frame : Z * string)
  : list string :=
  let (i, image_url) := frame in
  ("  Processing frame " ++ PyStr.str_of_int (i + 1) ++ "/" ++ PyStr.str_of_int n
   ++ ": " ++ image_url)
  :: match fetch_and_predict net model i image_url with
     | Raise e => ["  Error fetching image from URL " ++ image_url ++ ": " ++ exn_msg e]
     | Return _ => []
     end.

Definition header_line (n : Z) : string :=
  newline ++ "Analyzing video background with " ++ PyStr.str_of_int n ++ " frames...".

(** ** More sample data *)

Module Sample.

(** A search reply listing two photos. *)
Definition photo (regular : string) : json :=
  JDict [("id", JStr "p"); ("urls", JDict [("raw", JStr "r"); ("regular", JStr regular)])].

Definition search_reply : Response :=
  {| status_code := 200; reason := "OK";
     url := "https://api.unsplash.com/search/photos";
     content := "";
     decoded_body :=
       Json (JDict [("total", JInt 2);
                    ("results", JList [photo "living room"; photo "dining room"])]) |}.

(** A network whose search answers with [search_reply] for the query
    [ok], with status 403 for the query [forbidden] and with a body that is
    not JSON otherwise; images are served as in [Example.net]. *)
Definition net : Requests :=
  {| get_search := fun _ query _ =>
       if String.eqb query "ok" then Return search_reply
       else if String.eqb query "forbidden" then
         Return {| status_code := 403; reason := "Forbidden";
                   url := "https://api.unsplash.com/search/photos";
                   content := ""; decoded_body := NotJson "Expecting value" |}
       else
         Return {| status_code := 200; reason := "OK";
                   url := "https://api.unsplash.com/search/photos";
                   content := "<html>"; decoded_body := NotJson "Expecting value" |};
     get_image := get_image Example.net |}.

(** A detector whose class table lacks the class it reports. *)
Definition detector_unknown_class : YOLO :=
  {| predict := fun _ _ => Return [[ {| cls := 99; conf := 0.9 |} ]];
     names := Example.class_table |}.

(** A search reply whose first photo cannot be decoded by the detector. *)
Definition net_with_corrupt_photo : Requests :=
  {| get_search := fun _ _ _ =>
       Return {| status_code := 200; reason := "OK";
                 url := "https://api.unsplash.com/search/photos";
                 content := "";
                 decoded_body :=
                   Json (JDict [("results", JList [photo "corrupt"; photo "kitchen"])]) |};
     get_image := get_image Example.net |}.

End Sample.

(** ** [generate_report] and [main] *)

(** The report as the Python value handed to [json.dump]: nested dicts and
    lists in the order the source builds them.  A manifest lists
    ["environment"] before ["assets"], as the three manifests of [main] do;
    a key of value [None] in the model is a key left out. *)
Definition manifest_value (declared : DeclaredManifest) : json :=
  JDict (match environment declared with
         | Some e => [("environment", JStr e)]
         | None => []
         end
         ++ match assets declared with
            | Some a => [("assets", JDict (map (fun kv => (fst kv, JInt (snd kv))) a))]
            | None => []
            end)%list.

Definition row_value (row : ObjectRow) : json :=
  JDict [("item", JStr (item row));
         ("count", JInt (count row));
         ("avg_confidence", JFloat (avg_confidence row))].

Definition report_value (report : Report) : json :=
  JDict [("declared_data", manifest_value (declared_data report));
         ("analysis_results",
          JDict [("detected_environment",
                  JStr (detected_environment (analysis_results report)));
                 ("environment_confidence",
                  JFloat (environment_confidence (analysis_results report)));
                 ("detected_objects",
                  JList (map row_value (detected_objects (analysis_results report))))]);
         ("mismatch_highlight", JList (map JStr (mismatch_highlight report)));
         ("risk_flag", JStr (risk_flag report))].

(** What [open(path, 'w')] followed by the writes of [json.dump] does: the
    text is saved; or the file cannot be opened and stays as it was; or a
    write fails and the file is left with what had reached it. *)
Inductive write_result :=
| Saved
| OpenFailed (e : exn)
| WriteFailed (e : exn) (left_on_disk : string).

Inductive UseCase := UseCaseA | UseCaseB | UseCaseC.

(** Where [main] runs: the model loader [YOLO(weights)], the network of
    each use case, [json.dumps(value, indent=4)], [str(value)] for a URL
    value that is a float, a list or a dict, and the disk. *)
Record Host := {
  load_model : string -> outcome YOLO;
  network : UseCase -> Requests;
  json_dumps : json -> string;
  str_of_compound : json -> string;
  write_file : string -> string -> write_result
}.

(** [str(value)], as the f-strings and [requests.get] read an image URL. *)
Definition url_text (host : Host) (value : json) : string :=
  match value with
  | JStr s => s
  | JInt n => PyStr.str_of_int n
  | JNull => "None"
  | JBool true => "True"
  | JBool false => "False"
  | _ => str_of_compound host value
  end.

(** The files on disk: path to text. *)
Definition Files : Type := PyDict.t string.

(** A computation of [main]: it reads and writes files, prints, and yields
    a value or raises. *)
Definition prog (A : Type) : Type := Files -> outcome A * Files * list string.

Definition pbind {A B} (m : prog A) (f : A -> prog B) : prog B :=
  fun fs =>
    match m fs with
    | (Return a, fs1, out) =>
        let '(r, fs2, out') := f a fs1 in (r, fs2, (out ++ out')%list)
    | (Raise e, fs1, out) => (Raise e, fs1, out)
    end.

Definition of_io {A} (m : io A) : prog A := fun fs => (fst m, fs, snd m).

Declare Scope prog_scope.
Delimit Scope prog_scope with prog.
Notation "x <- m ;; k" := (pbind m (fun x => k))
  (at level 61, m at next level, right associativity) : prog_scope.
Notation "m ;; k" := (pbind m (fun _ => k))
  (at level 61, right associativity) : prog_scope.

Definition generate_report (host : Host) (report_data : json) (output_file : string)
  : prog unit :=
  fun fs =>
    let text := json_dumps host report_data in
    match write_file host output_file text with
    | Saved =>
        (Return tt, PyDict.set output_file text fs,
         ["Analysis report saved to " ++ output_file])
    | OpenFailed e => (Raise e, fs, [])
    | WriteFailed e left_on_disk => (Raise e, PyDict.set output_file left_on_disk fs, [])
    end.

Definition declared_data_a : DeclaredManifest :=
  {| environment := Some "Home"; assets := Some [("refrigerator", 2); ("sofa", 1)] |}.

Definition declared_data_b : DeclaredManifest :=
  {| environment := Some "Shop"; assets := Some [("refrigerator", 1); ("counter", 1)] |}.

Definition declared_data_c : DeclaredManifest :=
  {| environment := Some "Home"; assets := Some [("sofa", 1); ("chair", 2)] |}.

(** One use case of [main]: search, analysis, report file, echo. *)
Definition use_case (host : Host) (access_key : string) (model : YOLO) (which : UseCase)
    (declared_data : DeclaredManifest) (query output_file banner : string) : prog unit :=
  (image_urls <- of_io (fetch_image_urls_from_unsplash (network host which)
                          access_key query 3) ;;
   report <- of_io (analyze_video_background (network host which) model
                      (map (url_text host) image_urls) declared_data) ;;
   generate_report host (JList [report_value report]) output_file ;;
   of_io (print banner) ;;
   of_io (print (json_dumps host (report_value report))))%prog.

(** The body of the [try] block of [main]. *)
Definition main_body (host : Host) (access_key : string) : prog unit :=
  (model <- of_io (lift (load_model host "yolov8n.pt")) ;;
   of_io (print "Pre-trained YOLOv8n model loaded successfully.") ;;
   use_case host access_key model UseCaseA declared_data_a
     "supermarket shelves, retail store" "verification_report_A.json"
     (newline ++ "--- Verification Report A (Declared 'Home', Detected 'Shop') ---") ;;
   use_case host access_key model UseCaseB declared_data_b
     "living room, home kitchen" "verification_report_B.json"
     (newline ++ "--- Verification Report B (Declared 'Shop', Detected 'Home') ---") ;;
   use_case host access_key model UseCaseC declared_data_c
     "home living room, sofa, kitchen" "verification_report_C.json"
     (newline ++ "--- Verification Report C (Declared 'Home', Detected 'Home') ---"))%prog.

(** The line printed by the handler that catches [e]: the handler for
    request exceptions comes first. *)
Definition handler_line (e : exn) : string :=
  if is_request_exception (exn_cls e)
  then "An unexpected error occurred during an HTTP request: " ++ exn_msg e
  else "An unexpected error occurred: " ++ exn_msg e.

(** [main]: the files and the printed lines it leaves.  The two handlers
    print and return. *)
Definition main (host : Host) (access_key : string) (fs : Files) : Files * list string :=
  let '(r, fs', out) := main_body host access_key fs in
  let out := ("Initializing Intelligent Background Verification solution." :: out)%list in
  match r with
  | Return _ => (fs', out)
  | Raise e =>
      (fs',
       (out ++ [handler_line e])%list)
  end.

(** The report of a use case that has no frame. *)
Definition report_without_frames (declared : DeclaredManifest) : Report :=
  let mismatches :=
    (environment_mismatches declared "Uncategorized"
     ++ map (fun entry => asset_mismatch (fst entry) (snd entry) 0)
            (filter (fun entry => negb (snd entry =? 0)) (declared_assets_of declared)))%list in
  {| declared_data := declared;
     analysis_results :=
       {| detected_environment := "Uncategorized";
          environment_confidence := zero;
          detected_objects := [] |};
     mismatch_highlight := mismatches;
     risk_flag := match mismatches with [] => "Pass" | _ :: _ => "Review Required" end |}.


(** A host for the examples: the model loads, the disk saves, and the
    search of every use case lists a corrupt photo first. *)
Definition sample_host : Host :=
  {| load_model := fun _ => Return Example.detector;
     network := fun _ => Sample.net_with_corrupt_photo;
     json_dumps := fun value => "<" ++ type_name value ++ ">";
     str_of_compound := fun value => "<" ++ type_name value ++ ">";
     write_file := fun _ _ => Saved |}.

(** A host that cannot fetch the model weights. *)
Definition offline_host : Host :=
  {| load_model := fun _ =>
       Raise {| exn_cls := ConnectionError; exn_msg := "cannot download yolov8n.pt" |};
     network := fun _ => Example.net;
     json_dumps := fun value => "<" ++ type_name value ++ ">";
     str_of_compound := fun value => "<" ++ type_name value ++ ">";
     write_file := fun _ _ => Saved |}.

(** * Properties *)

(** ** Monad laws used below *)

Lemma bind_ret_l {A B} (a : A) (f : A -> io B) : bind (ret a) f = f a.
Proof. unfold bind, ret. destruct (f a). reflexivity. Qed.

Lemma bind_assoc {A B C} (m : io A) (f : A -> io B) (g : B -> io C) :
  bind (bind m f) g = bind m (fun a => bind (f a) g).
Proof.
  destruct m as [[a | e] out]; simpl; [ | reflexivity ].
  destruct (f a) as [[b | e] out1]; simpl; [ | reflexivity ].
  destruct (g b) as [r out2]. now rewrite app_assoc.
Qed.

Lemma bind_returns {A B} (m : io A) (f : A -> io B) (b : B) (out : list string) :
  bind m f = (Return b, out) ->
  exists a out1 out2,
    m = (Return a, out1) /\ f a = (Return b, out2) /\ out = (out1 ++ out2)%list.
Proof.
  destruct m as [[a | e] out1]; simpl; [ | discriminate ].
  destruct (f a) as [r out2] eqn:Hf. intros H. injection H as -> <-.
  now exists a, out1, out2.
Qed.

Lemma omap_returns {A B} (f : A -> outcome B) (l : list A) (bs : list B) :
  omap f l = Return bs -> Forall2 (fun a b => f a = Return b) l bs.
Proof.
  revert bs. induction l as [ | a l IH ]; simpl; intros bs H.
  - injection H as <-. constructor.
  - destruct (f a) as [b | e] eqn:Hf; simpl in H; [ | discriminate ].
    destruct (omap f l) as [bs' | e]; simpl in H; [ | discriminate ].
    injection H as <-. constructor; auto.
Qed.

(** ** Dictionaries *)

Section DictFacts.
Variable V : Type.
Implicit Types (d : PyDict.t V) (k : string) (v : V).

Lemma get_set_same k v d : PyDict.get k (PyDict.set k v d) = Some v.
Proof.
  induction d as [ | [k' v'] d IH ]; simpl.
  - now rewrite String.eqb_refl.
  - destruct (String.eqb k k') eqn:E; simpl; rewrite ?String.eqb_refl, ?E; auto.
Qed.

Lemma get_set_other k k' v d :
  k' <> k -> PyDict.get k' (PyDict.set k v d) = PyDict.get k' d.
Proof.
  intros Hne. induction d as [ | [k0 v0] d IH ]; simpl.
  - apply String.eqb_neq in Hne. now rewrite Hne.
  - destruct (String.eqb k k0) eqn:E; simpl.
    + apply String.eqb_eq in E. subst k0.
      apply String.eqb_neq in Hne. now rewrite Hne.
    + now rewrite IH.
Qed.

Lemma get_none_not_in k d : PyDict.get k d = None -> ~ In k (PyDict.keys d).
Proof.
  induction d as [ | [k' v'] d IH ]; simpl; [ tauto | ].
  destruct (String.eqb k k') eqn:E; [ discriminate | ].
  apply String.eqb_neq in E. intros H [-> | Hin]; [ congruence | now apply IH ].
Qed.

Lemma get_some_in k v d : PyDict.get k d = Some v -> In (k, v) d.
Proof.
  induction d as [ | [k' v'] d IH ]; simpl; [ discriminate | ].
  destruct (String.eqb k k') eqn:E.
  - apply String.eqb_eq in E. intros [= ->]. subst. now left.
  - intros H. right. now apply IH.
Qed.

Lemma in_nodup_get k v d :
  NoDup (PyDict.keys d) -> In (k, v) d -> PyDict.get k d = Some v.
Proof.
  induction d as [ | [k' v'] d IH ]; simpl; [ tauto | ].
  intros Hnd [Heq | Hin].
  - injection Heq as -> ->. now rewrite String.eqb_refl.
  - inversion Hnd as [ | ? ? Hnot Hnd' ]; subst.
    destruct (String.eqb k k') eqn:E.
    + apply String.eqb_eq in E. subst k'.
      exfalso. apply Hnot. change k with (fst (k, v)). now apply in_map.
    + now apply IH.
Qed.

Lemma keys_set k v d :
  PyDict.keys (PyDict.set k v d) =
  if PyDict.contains k d then PyDict.keys d else (PyDict.keys d ++ [k])%list.
Proof.
  unfold PyDict.contains.
  induction d as [ | [k' v'] d IH ]; simpl; [ reflexivity | ].
  destruct (String.eqb k k') eqn:E; simpl.
  - apply String.eqb_eq in E. now subst.
  - rewrite IH. now destruct (PyDict.get k d).
Qed.

Lemma nodup_keys_set k v d :
  NoDup (PyDict.keys d) -> NoDup (PyDict.keys (PyDict.set k v d)).
Proof.
  intros Hnd. rewrite keys_set. unfold PyDict.contains.
  destruct (PyDict.get k d) eqn:G; [ assumption | ].
  apply get_none_not_in in G.
  apply NoDup_rev in Hnd. rewrite <- (rev_involutive (_ ++ _)).
  apply NoDup_rev. rewrite rev_app_distr. simpl. constructor; [ | assumption ].
  now rewrite <- in_rev.
Qed.
End DictFacts.

(** ** Accumulation *)

Lemma recorded_app label a b :
  recorded label (a ++ b) = (recorded label a ++ recorded label b)%list.
Proof. unfold recorded. now rewrite filter_app, map_app. Qed.

Lemma recorded_one label l c :
  recorded label [(l, c)] = if String.eqb label l then [c] else [].
Proof. unfold recorded. simpl. now destruct (String.eqb label l). Qed.

Lemma accumulates_empty : accumulates empty_stats [].
Proof. split; simpl; auto. constructor. Qed.

Lemma get_default_accumulated_items st dets label :
  accumulates st dets ->
  PyDict.get_default label [] (all_detected_items st) = recorded label dets.
Proof.
  intros H. unfold PyDict.get_default. rewrite (acc_items H).
  now destruct (recorded label dets).
Qed.

Lemma get_default_accumulated_counts st dets label :
  accumulates st dets ->
  PyDict.get_default label 0 (all_detected_counts st) = detected_count label dets.
Proof.
  intros H. unfold PyDict.get_default, detected_count. rewrite (acc_counts H).
  now destruct (recorded label dets).
Qed.

Lemma contains_accumulated st dets label :
  accumulates st dets ->
  PyDict.contains label (all_detected_counts st) = detected label dets.
Proof.
  intros H. unfold PyDict.contains. rewrite (acc_counts H).
  unfold recorded, detected. clear H.
  induction dets as [ | d dets IH ]; simpl; [ reflexivity | ].
  destruct (String.eqb label (fst d)); simpl; auto.
Qed.

Lemma accumulates_record st dets l c :
  accumulates st dets ->
  accumulates (record_detection st l c) (dets ++ [(l, c)]).
Proof.
  intros H. split; simpl.
  - intros label. rewrite recorded_app, recorded_one.
    destruct (String.eqb label l) eqn:E.
    + apply String.eqb_eq in E. subst label.
      rewrite get_set_same, (get_default_accumulated_items l H).
      now destruct (recorded l dets).
    + apply String.eqb_neq in E. rewrite get_set_other by assumption.
      rewrite app_nil_r. apply (acc_items H).
  - intros label. rewrite recorded_app, recorded_one.
    destruct (String.eqb label l) eqn:E.
    + apply String.eqb_eq in E. subst label.
      rewrite get_set_same, (get_default_accumulated_counts l H).
      unfold detected_count.
      destruct (recorded l dets) as [ | x xs ]; simpl; [ reflexivity | ].
      f_equal. rewrite length_app. simpl. lia.
    + apply String.eqb_neq in E. rewrite get_set_other by assumption.
      rewrite app_nil_r. apply (acc_counts H).
  - apply nodup_keys_set, (acc_nodup H).
Qed.

Lemma record_boxes_accumulates model boxes :
  forall st st' dets,
    record_boxes model boxes st = Return st' ->
    accumulates st dets ->
    exists new, label_boxes model boxes = Return new /\ accumulates st' (dets ++ new).
Proof.
  induction boxes as [ | box boxes IH ]; simpl; intros st st' dets Hrun Hacc.
  - injection Hrun as <-. exists []. now rewrite app_nil_r.
  - unfold label_boxes. simpl.
    destruct (names_get (cls box) (names model)) as [item_name | e]; simpl in *;
      [ | discriminate ].
    destruct (IH _ _ _ Hrun (accumulates_record item_name (conf box) Hacc))
      as (new & Hnew & Hacc').
    unfold label_boxes in Hnew. rewrite Hnew. simpl.
    exists ((item_name, conf box) :: new). split; [ reflexivity | ].
    now rewrite <- app_assoc in Hacc'.
Qed.

Lemma record_boxes_returns model boxes :
  forall st new,
    label_boxes model boxes = Return new -> exists st', record_boxes model boxes st = Return st'.
Proof.
  unfold label_boxes.
  induction boxes as [ | box boxes IH ]; simpl; intros st new Hnew.
  - now exists st.
  - destruct (names_get (cls box) (names model)) as [item_name | e]; simpl in *;
      [ | discriminate ].
    destruct (omap _ boxes) as [new' | e] eqn:Ho; simpl in Hnew; [ | discriminate ].
    apply (IH _ new'). reflexivity.
Qed.

Lemma frames_loop_cons net model n i image_url rest st :
  frames_loop net model n i (image_url :: rest) st =
  (print ("  Processing frame " ++ PyStr.str_of_int (i + 1) ++ "/"
          ++ PyStr.str_of_int n ++ ": " ++ image_url) ;;
   match fetch_and_predict net model i image_url with
   | Raise e =>
       if is_request_exception (exn_cls e) then
         print ("  Error fetching image from URL " ++ image_url ++ ": " ++ exn_msg e) ;;
         frames_loop net model n (i + 1) rest st
       else raise e
   | Return results =>
       match results with
       | boxes :: _ =>
           st' <- lift (record_boxes model boxes st) ;;
           frames_loop net model n (i + 1) rest st'
       | [] => frames_loop net model n (i + 1) rest st
       end
   end).
Proof. reflexivity. Qed.

Lemma frames_loop_accumulates net model n image_urls :
  forall i st dets st' out,
    frames_loop net model n i image_urls st = (Return st', out) ->
    accumulates st dets ->
    accumulates st' (dets ++ detection_stream net model i image_urls).
Proof.
  induction image_urls as [ | image_url rest IH ]; intros i st dets st' out Hrun Hacc.
  - injection Hrun as <- _. simpl. now rewrite app_nil_r.
  - rewrite frames_loop_cons in Hrun.
    apply bind_returns in Hrun. destruct Hrun as ([] & out1 & out2 & _ & Hrun & _).
    cbn [detection_stream]. unfold frame_detections.
    destruct (fetch_and_predict net model i image_url) as [[ | boxes results] | e].
    + simpl. eauto.
    + apply bind_returns in Hrun. destruct Hrun as (st1 & o1 & o2 & Hboxes & Hrest & _).
      unfold lift in Hboxes. injection Hboxes as Hboxes _.
      destruct (record_boxes_accumulates _ _ Hboxes Hacc) as (new & Hnew & Hacc1).
      rewrite Hnew, app_assoc. eauto.
    + destruct (is_request_exception (exn_cls e)); [ | discriminate ].
      apply bind_returns in Hrun. destruct Hrun as ([] & o1 & o2 & _ & Hrest & _).
      simpl. eauto.
Qed.

(** A report comes from accumulators that hold the detection stream of the
    run. *)
Lemma analyze_with_returns rules net model image_urls declared report out :
  analyze_with rules net model image_urls declared = (Return report, out) ->
  exists st,
    accumulates st (detection_stream net model 0 image_urls) /\
    build_report rules declared st = Return report.
Proof.
  unfold analyze_with. intros H.
  apply bind_returns in H. destruct H as ([] & o1 & o2 & _ & H & _).
  apply bind_returns in H. destruct H as (st & o3 & o4 & Hloop & Hrep & _).
  exists st. split.
  - apply (frames_loop_accumulates _ _ _ _ _ Hloop accumulates_empty).
  - unfold lift in Hrep. now injection Hrep.
Qed.

(** ** Classification *)

Lemma common_items_accumulated st dets items :
  accumulates st dets -> common_items_of st items = intersection items dets.
Proof.
  intros H. unfold common_items_of, intersection.
  apply filter_ext. intros item. apply (contains_accumulated item H).
Qed.

Lemma intersection_nil items dets :
  intersection items dets = [] <-> intersects items dets = false.
Proof.
  unfold intersection, intersects.
  induction items as [ | item items IH ]; simpl; [ tauto | ].
  destruct (detected item dets); simpl; [ | exact IH ].
  split; discriminate.
Qed.

Lemma detected_count_pos label dets :
  detected label dets = true -> 1 <= detected_count label dets.
Proof.
  unfold detected, detected_count, recorded.
  induction dets as [ | d dets IH ]; simpl; [ discriminate | ].
  destruct (String.eqb label (fst d)); simpl; [ lia | exact IH ].
Qed.

Lemma int_sum_lower_bound xs :
  Forall (fun x => 1 <= x) xs ->
  forall acc, acc + Z.of_nat (List.length xs) <= fold_left Z.add xs acc.
Proof.
  induction 1 as [ | x xs Hx _ IH ]; intros acc; simpl; [ lia | ].
  specialize (IH (acc + x)). lia.
Qed.

Lemma total_count_pos items dets :
  intersection items dets <> [] ->
  0 < int_sum (map (fun item => detected_count item dets) (intersection items dets)).
Proof.
  intros Hne. unfold int_sum.
  assert (Hall : Forall (fun x => 1 <= x)
                   (map (fun item => detected_count item dets) (intersection items dets))).
  { apply Forall_map, Forall_forall. intros item Hin.
    apply filter_In in Hin. now apply detected_count_pos. }
  pose proof (int_sum_lower_bound Hall 0) as Hb. rewrite length_map in Hb.
  destruct (intersection items dets); [ congruence | simpl List.length in Hb; lia ].
Qed.

Lemma classify_accumulated rules st dets :
  accumulates st dets ->
  classify rules st =
  match first_match rules dets with
  | Some rule => (fst rule, weighted_mean (snd rule) dets)
  | None => ("Uncategorized", zero)
  end.
Proof.
  intros H. unfold first_match.
  induction rules as [ | [env items] rules IH ]; simpl; [ reflexivity | ].
  rewrite (common_items_accumulated items H).
  destruct (intersects items dets) eqn:E.
  - assert (Hne : intersection items dets <> []).
    { intros Hnil. apply intersection_nil in Hnil. congruence. }
    pose proof (total_count_pos _ _ Hne) as Hpos.
    unfold weighted_mean. simpl.
    rewrite (map_ext _ (fun item => PyFloat.sum (recorded item dets)))
      by (intros item; now rewrite (get_default_accumulated_items item H)).
    rewrite (map_ext (fun item => PyDict.get_default item 0 (all_detected_counts st))
                     (fun item => detected_count item dets))
      by (intros item; apply (get_default_accumulated_counts item H)).
    apply Z.ltb_lt in Hpos. rewrite Hpos.
    destruct (intersection items dets); [ congruence | reflexivity ].
  - apply intersection_nil in E. rewrite E. exact IH.
Qed.

Lemma find_filter {A} (p : A -> bool) (l : list A) : find p l = find p (filter p l).
Proof.
  induction l as [ | a l IH ]; simpl; [ reflexivity | ].
  destruct (p a) eqn:E; simpl; [ now rewrite E | exact IH ].
Qed.

Lemma classify_same_matching rules rules' st dets :
  accumulates st dets ->
  filter (fun rule => intersects (snd rule) dets) rules' =
  filter (fun rule => intersects (snd rule) dets) rules ->
  classify rules' st = classify rules st.
Proof.
  intros H Hf. rewrite !(classify_accumulated _ H). unfold first_match.
  now rewrite (find_filter _ rules'), (find_filter _ rules), Hf.
Qed.

(** ** Comparison *)

Lemma fold_check_asset st dets declared_assets :
  accumulates st dets ->
  forall acc,
    fold_left (check_asset st) declared_assets acc =
    ((fst acc ++ asset_mismatches declared_assets dets)%list,
     match asset_mismatches declared_assets dets with
     | [] => snd acc
     | _ :: _ => review_required
     end).
Proof.
  intros H. unfold asset_mismatches.
  induction declared_assets as [ | [asset declared_count] rest IH ]; intros [ms rf]; simpl.
  - now rewrite app_nil_r.
  - rewrite IH, (get_default_accumulated_counts asset H).
    destruct (declared_count =? detected_count asset dets); simpl.
    + reflexivity.
    + rewrite <- app_assoc. simpl. f_equal.
      now destruct (map _ _).
Qed.

Lemma check_environment_initial declared detected_environment :
  check_environment (environment declared) detected_environment ([], pass) =
  (environment_mismatches declared detected_environment,
   match environment_mismatches declared detected_environment with
   | [] => pass
   | _ :: _ => review_required
   end).
Proof.
  unfold check_environment, environment_mismatches.
  destruct (environment declared) as [e | ]; [ | reflexivity ].
  now destruct (PyStr.truthy e && _)%bool.
Qed.

Lemma compare_declared_accumulated declared detected_environment st dets :
  accumulates st dets ->
  let mismatches :=
    (environment_mismatches declared detected_environment
     ++ asset_mismatches (declared_assets_of declared) dets)%list in
  compare_declared declared detected_environment st =
  (mismatches, match mismatches with [] => pass | _ :: _ => review_required end).
Proof.
  intros H. unfold compare_declared, PyDict.items.
  rewrite check_environment_initial, (fold_check_asset _ H). simpl.
  fold (declared_assets_of declared).
  destruct (environment_mismatches declared detected_environment); simpl;
    now destruct (asset_mismatches _ _).
Qed.

(** ** Report assembly *)

Lemma build_report_fields rules declared st report :
  build_report rules declared st = Return report ->
  (detected_environment (analysis_results report),
   environment_confidence (analysis_results report)) = classify rules st /\
  (mismatch_highlight report, risk_flag report) =
    compare_declared declared (detected_environment (analysis_results report)) st /\
  omap (object_row st) (all_detected_items st) =
    Return (detected_objects (analysis_results report)) /\
  declared_data report = declared.
Proof.
  unfold build_report, PyDict.items.
  destruct (classify rules st) as [env c].
  destruct (compare_declared declared env st) as [ms rf] eqn:Hc.
  destruct (omap (object_row st) (all_detected_items st)) as [rows | e]; simpl;
    [ | discriminate ].
  intros [= <-]. simpl. now rewrite Hc.
Qed.

Lemma object_row_accumulated st dets label confidences :
  accumulates st dets ->
  In (label, confidences) (all_detected_items st) ->
  confidences = recorded label dets /\
  confidences <> [] /\
  object_row st (label, confidences) =
  Return {| item := PyStr.title label;
            count := detected_count label dets;
            avg_confidence :=
              PyFloat.round2 (PyFloat.sum (recorded label dets)
                              / PyFloat.of_int (detected_count label dets))%float |}.
Proof.
  intros H Hin.
  apply (in_nodup_get _ _ _ (acc_nodup H)) in Hin.
  rewrite (acc_items H) in Hin.
  assert (Hrec : recorded label dets = confidences /\ confidences <> []).
  { destruct (recorded label dets) eqn:E; simpl in Hin; [ discriminate | ].
    injection Hin as <-. split; [ reflexivity | discriminate ]. }
  destruct Hrec as [Hrec Hne]. split; [ now symmetry | ]. split; [ assumption | ].
  unfold object_row, mean, truediv.
  rewrite (get_default_accumulated_counts label H).
  unfold detected_count. rewrite Hrec.
  destruct confidences as [ | c cs ]; [ congruence | ].
  reflexivity.
Qed.

Lemma rows_return st dets :
  accumulates st dets ->
  exists rows, omap (object_row st) (all_detected_items st) = Return rows.
Proof.
  intros H.
  assert (Hall : forall entry, In entry (all_detected_items st) ->
                   exists row, object_row st entry = Return row).
  { intros [label cs] Hin.
    destruct (object_row_accumulated _ _ H Hin) as (_ & _ & Hrow). eauto. }
  induction (all_detected_items st) as [ | entry entries IH ]; simpl.
  - now exists [].
  - destruct (Hall entry (or_introl eq_refl)) as [row ->]. simpl.
    destruct IH as [rows ->]; [ intros; apply Hall; now right | ].
    simpl. eauto.
Qed.

(** The part after the frame loop never raises on accumulated detections. *)
Lemma build_report_returns rules declared st dets :
  accumulates st dets -> exists report, build_report rules declared st = Return report.
Proof.
  intros H. unfold build_report, PyDict.items.
  destruct (classify rules st) as [env c].
  destruct (compare_declared declared env st) as [ms rf].
  destruct (rows_return H) as [rows ->]. simpl. eauto.
Qed.

Lemma Forall2_in_r {A B} (R : A -> B -> Prop) l l' b :
  Forall2 R l l' -> In b l' -> exists a, In a l /\ R a b.
Proof.
  induction 1 as [ | a0 b0 l l' HR _ IH ]; simpl; [ tauto | ].
  intros [<- | Hin]; [ eauto | ].
  destruct (IH Hin) as (a & Ha & HRa). eauto.
Qed.

Lemma Forall2_in_l {A B} (R : A -> B -> Prop) l l' a :
  Forall2 R l l' -> In a l -> exists b, In b l' /\ R a b.
Proof.
  induction 1 as [ | a0 b0 l l' HR _ IH ]; simpl; [ tauto | ].
  intros [<- | Hin]; [ eauto | ].
  destruct (IH Hin) as (b & Hb & HRb). eauto.
Qed.

Lemma detected_recorded label dets :
  detected label dets = true <-> recorded label dets <> [].
Proof.
  unfold detected, recorded.
  induction dets as [ | d dets IH ]; simpl.
  - split; [ discriminate | congruence ].
  - destruct (String.eqb label (fst d)); simpl; [ | exact IH ].
    split; [ discriminate | reflexivity ].
Qed.

Lemma detected_count_zero label dets :
  detected label dets = false -> detected_count label dets = 0.
Proof.
  intros H. unfold detected_count.
  destruct (recorded label dets) eqn:E; [ reflexivity | ].
  assert (Hd : detected label dets = true) by (apply detected_recorded; congruence).
  congruence.
Qed.

(** ** The report of a run *)

Section Run.
Variables (rules : list (string * list string)) (net : Requests) (model : YOLO).
Variables (image_urls : list string) (declared : DeclaredManifest).
Variables (report : Report) (out : list string).
Hypothesis Hrun :
  analyze_with rules net model image_urls declared = (Return report, out).

Abbreviation dets := (detection_stream net model 0 image_urls).

Lemma report_environment :
  (detected_environment (analysis_results report),
   environment_confidence (analysis_results report)) =
  match first_match rules dets with
  | Some rule => (fst rule, weighted_mean (snd rule) dets)
  | None => ("Uncategorized", zero)
  end.
Proof.
  destruct (analyze_with_returns _ _ _ _ _ Hrun) as (st & Hacc & Hrep).
  destruct (build_report_fields _ _ _ Hrep) as (Hc & _).
  now rewrite Hc, (classify_accumulated _ Hacc).
Qed.

Lemma report_mismatches :
  let mismatches :=
    (environment_mismatches declared (detected_environment (analysis_results report))
     ++ asset_mismatches (declared_assets_of declared) dets)%list in
  mismatch_highlight report = mismatches /\
  risk_flag report = match mismatches with [] => pass | _ :: _ => review_required end.
Proof.
  destruct (analyze_with_returns _ _ _ _ _ Hrun) as (st & Hacc & Hrep).
  destruct (build_report_fields _ _ _ Hrep) as (_ & Hm & _).
  rewrite (compare_declared_accumulated _ _ Hacc) in Hm.
  now injection Hm as -> ->.
Qed.

Lemma report_rows_sound row :
  In row (detected_objects (analysis_results report)) ->
  exists label, detected label dets = true /\ row = object_row_of dets label.
Proof.
  destruct (analyze_with_returns _ _ _ _ _ Hrun) as (st & Hacc & Hrep).
  destruct (build_report_fields _ _ _ Hrep) as (_ & _ & Hrows & _).
  apply omap_returns in Hrows. intros Hin.
  destruct (Forall2_in_r _ Hrows Hin) as ([label cs] & Hentry & Hrow).
  destruct (object_row_accumulated _ _ Hacc Hentry) as (Hcs & Hne & Hrow').
  exists label. split.
  - apply detected_recorded. now rewrite <- Hcs.
  - rewrite Hrow' in Hrow. now injection Hrow.
Qed.

Lemma report_rows_complete label :
  detected label dets = true ->
  In (object_row_of dets label) (detected_objects (analysis_results report)).
Proof.
  destruct (analyze_with_returns _ _ _ _ _ Hrun) as (st & Hacc & Hrep).
  destruct (build_report_fields _ _ _ Hrep) as (_ & _ & Hrows & _).
  apply omap_returns in Hrows. intros Hdet.
  apply detected_recorded in Hdet.
  assert (Hentry : In (label, recorded label dets) (all_detected_items st)).
  { apply get_some_in. rewrite (acc_items Hacc).
    destruct (recorded label dets); [ congruence | reflexivity ]. }
  destruct (Forall2_in_l _ Hrows Hentry) as (row & Hin & Hrow).
  destruct (object_row_accumulated _ _ Hacc Hentry) as (_ & _ & Hrow').
  rewrite Hrow' in Hrow. now injection Hrow as <-.
Qed.
End Run.

Lemma bind_ext {A B} (m : io A) (f g : A -> io B) :
  (forall a, f a = g a) -> bind m f = bind m g.
Proof. intros H. destruct m as [[a | e] o]; simpl; [ now rewrite H | reflexivity ]. Qed.

(** Rule tables with the same matching rules, in the same order, give the
    same run. *)
Lemma analyze_with_same_matching rules rules' net model image_urls declared :
  let dets := detection_stream net model 0 image_urls in
  filter (fun rule => intersects (snd rule) dets) rules' =
  filter (fun rule => intersects (snd rule) dets) rules ->
  analyze_with rules' net model image_urls declared =
  analyze_with rules net model image_urls declared.
Proof.
  intros dets Hf. unfold analyze_with.
  apply bind_ext. intros _.
  destruct (frames_loop net model (Z.of_nat (List.length image_urls)) 0 image_urls
                        empty_stats) as [[st | e] o] eqn:Hloop; [ | reflexivity ].
  pose proof (frames_loop_accumulates _ _ _ _ _ Hloop accumulates_empty) as Hacc.
  simpl in Hacc. unfold bind, lift, build_report.
  now rewrite (classify_same_matching _ _ Hacc Hf).
Qed.

Lemma first_match_no_detections rules : first_match rules [] = None.
Proof.
  unfold first_match.
  induction rules as [ | [env items] rules IH ]; simpl; [ reflexivity | ].
  replace (intersects items []) with false; [ exact IH | ].
  unfold intersects. induction items; simpl; auto.
Qed.

(** ** The frame loop *)

Lemma frames_loop_app net model n pre post :
  forall i st,
    frames_loop net model n i (pre ++ post) st =
    (st' <- frames_loop net model n i pre st ;;
     frames_loop net model n (i + Z.of_nat (List.length pre)) post st').
Proof.
  induction pre as [ | image_url pre IH ]; intros i st.
  - cbn [app frames_loop]. rewrite bind_ret_l.
    now replace (i + Z.of_nat (@List.length string [])) with i by (simpl; lia).
  - change ((image_url :: pre) ++ post)%list with (image_url :: (pre ++ post))%list.
    rewrite !frames_loop_cons, bind_assoc.
    apply bind_ext. intros _.
    replace (i + Z.of_nat (List.length (image_url :: pre)))
      with (i + 1 + Z.of_nat (List.length pre)) by (simpl List.length; lia).
    destruct (fetch_and_predict net model i image_url) as [[ | boxes results] | e].
    + apply IH.
    + rewrite bind_assoc. apply bind_ext. intros st1. apply IH.
    + destruct (is_request_exception (exn_cls e)); [ | reflexivity ].
      rewrite bind_assoc. apply bind_ext. intros _. apply IH.
Qed.

Lemma frames_loop_returns net model n image_urls :
  forall i st,
    frames_recoverable net model i image_urls = true ->
    exists st' out, frames_loop net model n i image_urls st = (Return st', out).
Proof.
  induction image_urls as [ | image_url rest IH ]; intros i st Hok.
  - now exists st, [].
  - rewrite frames_loop_cons. cbn [frames_recoverable] in Hok.
    apply andb_true_iff in Hok. destruct Hok as [Hframe Hrest].
    destruct (fetch_and_predict net model i image_url) as [[ | boxes results] | e].
    + destruct (IH (i + 1) st Hrest) as (st' & o & ->). unfold bind, print. eauto.
    + destruct (label_boxes model boxes) as [new | e] eqn:Hnew; [ | discriminate ].
      destruct (record_boxes_returns _ _ st Hnew) as (st1 & ->).
      destruct (IH (i + 1) st1 Hrest) as (st' & o & Heq).
      unfold bind, print, lift. rewrite Heq. eauto.
    + rewrite Hframe.
      destruct (IH (i + 1) st Hrest) as (st' & o & Heq).
      unfold bind, print. rewrite Heq. eauto.
Qed.

Lemma frames_loop_recoverable net model n image_urls :
  forall i st st' out,
    frames_loop net model n i image_urls st = (Return st', out) ->
    frames_recoverable net model i image_urls = true.
Proof.
  induction image_urls as [ | image_url rest IH ]; intros i st st' out Hrun;
    [ reflexivity | ].
  rewrite frames_loop_cons in Hrun. cbn [frames_recoverable].
  apply bind_returns in Hrun. destruct Hrun as ([] & out1 & out2 & _ & Hrun & _).
  destruct (fetch_and_predict net model i image_url) as [[ | boxes results] | e].
  - simpl. eauto.
  - apply bind_returns in Hrun. destruct Hrun as (st1 & o1 & o2 & Hboxes & Hrest & _).
    unfold lift in Hboxes. injection Hboxes as Hboxes _.
    assert (Hlab : exists new, label_boxes model boxes = Return new).
    { clear - Hboxes. revert st Hboxes. unfold label_boxes.
      induction boxes as [ | box boxes IHb ]; simpl; intros st Hboxes; [ eauto | ].
      destruct (names_get (cls box) (names model)) as [item_name | e]; simpl in *;
        [ | discriminate ].
      destruct (IHb _ Hboxes) as (new & ->). simpl. eauto. }
    destruct Hlab as (new & ->). simpl. eauto.
  - destruct (is_request_exception (exn_cls e)); [ | discriminate ].
    apply bind_returns in Hrun. destruct Hrun as ([] & o1 & o2 & _ & Hrest & _).
    simpl. eauto.
Qed.

Lemma frames_recoverable_app net model pre post :
  forall i,
    frames_recoverable net model i (pre ++ post) =
    (frames_recoverable net model i pre
     && frames_recoverable net model (i + Z.of_nat (List.length pre)) post)%bool.
Proof.
  induction pre as [ | image_url pre IH ]; intros i.
  - simpl. now rewrite Z.add_0_r.
  - change ((image_url :: pre) ++ post)%list with (image_url :: (pre ++ post))%list.
    cbn [frames_recoverable]. rewrite IH, andb_assoc.
    now replace (i + Z.of_nat (List.length (image_url :: pre)))
      with (i + 1 + Z.of_nat (List.length pre)) by (simpl List.length; lia).
Qed.

(** A run whose frames are all recoverable ends with a report. *)
Lemma analyze_with_total rules net model image_urls declared :
  frames_recoverable net model 0 image_urls = true ->
  exists report out,
    analyze_with rules net model image_urls declared = (Return report, out).
Proof.
  intros Hok. unfold analyze_with.
  destruct (frames_loop_returns net model (Z.of_nat (List.length image_urls))
              image_urls 0 empty_stats Hok) as (st & o & Hloop).
  pose proof (frames_loop_accumulates _ _ _ _ _ Hloop accumulates_empty) as Hacc.
  destruct (build_report_returns rules declared Hacc) as (report & Hrep).
  unfold bind, print, lift. rewrite Hloop, Hrep. eauto.
Qed.

(** A run ends with a report exactly when its frames are all recoverable. *)
Lemma analyze_with_returns_iff rules net model image_urls declared :
  (exists report out,
     analyze_with rules net model image_urls declared = (Return report, out)) <->
  frames_recoverable net model 0 image_urls = true.
Proof.
  split; [ | apply analyze_with_total ].
  intros (report & out & H). unfold analyze_with in H.
  apply bind_returns in H. destruct H as ([] & o1 & o2 & _ & H & _).
  apply bind_returns in H. destruct H as (st & o3 & o4 & Hloop & _).
  eapply frames_loop_recoverable, Hloop.
Qed.

(** The reads [all_detected_items[item]] and [all_detected_counts[item]] of
    the classification and of the report always find their key, so the
    [defaultdict]s never grow after the frame loop. *)
Lemma reads_find_their_key st dets :
  accumulates st dets ->
  (forall items item,
      In item (common_items_of st items) ->
      (exists cs, PyDict.get item (all_detected_items st) = Some cs) /\
      (exists n, PyDict.get item (all_detected_counts st) = Some n)) /\
  (forall item cs,
      In (item, cs) (PyDict.items (all_detected_items st)) ->
      exists n, PyDict.get item (all_detected_counts st) = Some n).
Proof.
  intros H. split.
  - intros items item Hin. apply filter_In in Hin. destruct Hin as [_ Hc].
    rewrite (contains_accumulated item H) in Hc. apply detected_recorded in Hc.
    rewrite (acc_items H), (acc_counts H).
    destruct (recorded item dets); [ congruence | simpl; eauto ].
  - intros item cs Hin. unfold PyDict.items in Hin.
    destruct (object_row_accumulated _ _ H Hin) as (Hcs & Hne & _).
    rewrite (acc_counts H), <- Hcs.
    destruct cs; [ congruence | simpl; eauto ].
Qed.

(** ** [fetch_image_urls_from_unsplash] *)

(** With the access key as shipped no request is made and the result is
    empty. *)
Lemma fetch_with_placeholder_key net query count :
  fetch_image_urls_from_unsplash net placeholder_access_key query count =
  (Return [],
   ["Error: Please replace 'YOUR_UNSPLASH_ACCESS_KEY' with your actual Unsplash API key."]).
Proof. reflexivity. Qed.

(** A request exception inside the [try] block is logged and gives the
    empty list. *)
Lemma fetch_request_exception net access_key query count e :
  access_key <> placeholder_access_key ->
  search_image_urls net access_key query count = Raise e ->
  is_request_exception (exn_cls e) = true ->
  fetch_image_urls_from_unsplash net access_key query count =
  (Return [],
   ["Error fetching images from Unsplash for query '" ++ query ++ "': " ++ exn_msg e]).
Proof.
  intros Hkey Hraise Hreq. unfold fetch_image_urls_from_unsplash.
  apply String.eqb_neq in Hkey. rewrite Hkey, Hraise, Hreq. reflexivity.
Qed.

(** An exception of another class leaves the function. *)
Lemma fetch_other_exception net access_key query count e :
  access_key <> placeholder_access_key ->
  search_image_urls net access_key query count = Raise e ->
  is_request_exception (exn_cls e) = false ->
  fetch_image_urls_from_unsplash net access_key query count = (Raise e, []).
Proof.
  intros Hkey Hraise Hreq. unfold fetch_image_urls_from_unsplash.
  apply String.eqb_neq in Hkey. rewrite Hkey, Hraise, Hreq. reflexivity.
Qed.

(** * The claims *)

(** C1. The selected environment is that of the first rule, in table order,
    whose label set intersects the detected labels ("Uncategorized" when no
    rule does); a rule table that differs only in rules that do not intersect
    the detected labels gives the same run, so the same environment and
    confidence.  [analyze_video_background] is the instance at [env_rules]. *)
Theorem first_matching_rule_selected
    rules net model image_urls declared report out :
  analyze_with rules net model image_urls declared = (Return report, out) ->
  let dets := detection_stream net model 0 image_urls in
  detected_environment (analysis_results report) =
    match find (fun rule => intersects (snd rule) dets) rules with
    | Some rule => fst rule
    | None => "Uncategorized"
    end
  /\ (forall rules',
        filter (fun rule => intersects (snd rule) dets) rules' =
        filter (fun rule => intersects (snd rule) dets) rules ->
        analyze_with rules' net model image_urls declared = (Return report, out)).
Proof.
  intros Hrun dets. split.
  - pose proof (@report_environment _ _ _ _ _ _ _ Hrun) as H. unfold first_match in H. fold dets in H.
    destruct (find _ rules); now injection H.
  - intros rules' Hf. now rewrite (analyze_with_same_matching _ _ _ _ _ _ Hf).
Qed.

Lemma first_matching_rule_selected_witness :
  exists report out,
    analyze_video_background Example.net Example.detector ["kitchen"] Example.declared_shop
      = (Return report, out)
    /\ detected_environment (analysis_results report) = "Home"
    /\ analyze_with Example.reordered_rules Example.net Example.detector ["kitchen"]
         Example.declared_shop = (Return report, out).
Proof.
  eexists. eexists. split; [ vm_compute; reflexivity | ].
  match goal with
  | |- detected_environment (analysis_results ?r) = _ /\ _ = (_, ?o) =>
      assert (Hrun : analyze_with env_rules Example.net Example.detector ["kitchen"]
                       Example.declared_shop = (Return r, o))
        by (vm_compute; reflexivity);
      destruct (first_matching_rule_selected _ _ _ _ _ Hrun) as [Henv Hsame]
  end.
  split.
  - rewrite Henv. vm_compute. reflexivity.
  - apply Hsame. vm_compute. reflexivity.
Defined.

(** C2. When some rule intersects the detected labels, the reported
    environment is that of the first such rule and the reported confidence is
    the sum of the recorded confidences of that rule's intersecting labels,
    divided by the sum of their counts and rounded to two decimals. *)
Theorem environment_confidence_weighted_mean
    rules net model image_urls declared report out rule :
  analyze_with rules net model image_urls declared = (Return report, out) ->
  let dets := detection_stream net model 0 image_urls in
  find (fun rule => intersects (snd rule) dets) rules = Some rule ->
  let common := filter (fun item => detected item dets) (snd rule) in
  detected_environment (analysis_results report) = fst rule /\
  environment_confidence (analysis_results report) =
    PyFloat.round2
      (PyFloat.sum (map (fun item => PyFloat.sum (recorded item dets)) common)
       / PyFloat.of_int (int_sum (map (fun item => detected_count item dets) common)))%float.
Proof.
  intros Hrun dets Hfind common.
  pose proof (@report_environment _ _ _ _ _ _ _ Hrun) as H. unfold first_match in H. fold dets in H.
  rewrite Hfind in H. now injection H.
Qed.

Lemma environment_confidence_weighted_mean_witness :
  exists report out,
    analyze_video_background Example.net Example.detector Example.home_frames
      Example.declared_home = (Return report, out)
    /\ detected_environment (analysis_results report) = "Home"
    /\ environment_confidence (analysis_results report) =
         PyFloat.round2 ((0 + (0 + 0.9) + (0 + 0.8 + 0.7)) / 3)%float.
Proof.
  eexists. eexists. split; [ vm_compute; reflexivity | ].
  match goal with
  | |- detected_environment (analysis_results ?r) = _ /\ _ =>
      assert (Hrun : analyze_with env_rules Example.net Example.detector Example.home_frames
                       Example.declared_home = (Return r, _))
        by (vm_compute; reflexivity);
      pose proof (@environment_confidence_weighted_mean
                    _ _ _ _ _ _ _ (nth 0 env_rules ("", [])) Hrun) as H
  end.
  cbv zeta in H. destruct H as [Henv Hconf]; [ vm_compute; reflexivity | ].
  split.
  - rewrite Henv. reflexivity.
  - rewrite Hconf. vm_compute. reflexivity.
Defined.

(** C3. Every row of [detected_objects] is the row of a detected label: its
    count is the number of confidences recorded for the label, at least one,
    and its [avg_confidence] is their sum divided by their number, rounded to
    two decimals.  In particular a label detected exactly once, at confidence
    0.9, has a row with count 1 and [avg_confidence] 0.9. *)
Theorem detected_objects_rows
    rules net model image_urls declared report out :
  analyze_with rules net model image_urls declared = (Return report, out) ->
  let dets := detection_stream net model 0 image_urls in
  (forall row, In row (detected_objects (analysis_results report)) ->
     exists label,
       item row = PyStr.title label /\
       detected label dets = true /\
       count row = Z.of_nat (List.length (recorded label dets)) /\
       1 <= count row /\
       avg_confidence row =
         PyFloat.round2 (PyFloat.sum (recorded label dets)
                         / PyFloat.of_int (Z.of_nat (List.length (recorded label dets))))%float)
  /\ (forall label, recorded label dets = [0.9%float] ->
        exists row,
          In row (detected_objects (analysis_results report)) /\
          item row = PyStr.title label /\ count row = 1 /\
          avg_confidence row = 0.9%float).
Proof.
  intros Hrun dets. split.
  - intros row Hin.
    destruct (@report_rows_sound _ _ _ _ _ _ _ Hrun row Hin) as (label & Hdet & ->).
    exists label. simpl. repeat split; auto.
    now apply detected_count_pos.
  - intros label Hrec.
    assert (Hdet : detected label dets = true).
    { apply detected_recorded. rewrite Hrec. discriminate. }
    pose proof (@report_rows_complete _ _ _ _ _ _ _ Hrun label Hdet) as Hin.
    eexists. split; [ exact Hin | ]. simpl. unfold detected_count.
    fold dets. rewrite Hrec. repeat split.
Qed.

Lemma detected_objects_rows_witness :
  exists report out,
    analyze_video_background Example.net Example.detector Example.home_frames
      Example.declared_home = (Return report, out)
    /\ exists row,
         In row (detected_objects (analysis_results report)) /\
         item row = "Sofa" /\ count row = 1 /\ avg_confidence row = 0.9%float.
Proof.
  eexists. eexists. split; [ vm_compute; reflexivity | ].
  match goal with
  | |- exists row, In row (detected_objects (analysis_results ?r)) /\ _ =>
      assert (Hrun : analyze_with env_rules Example.net Example.detector Example.home_frames
                       Example.declared_home = (Return r, _))
        by (vm_compute; reflexivity);
      destruct (detected_objects_rows _ _ _ _ _ Hrun) as [_ Honce]
  end.
  destruct (Honce "sofa") as (row & Hin & Hitem & Hcount & Havg).
  - vm_compute. reflexivity.
  - exists row. repeat split; assumption.
Defined.

(** C4. A run whose detection stream is empty reports the environment
    "Uncategorized" with confidence 0.0. *)
Theorem no_detections_uncategorized
    rules net model image_urls declared report out :
  analyze_with rules net model image_urls declared = (Return report, out) ->
  detection_stream net model 0 image_urls = [] ->
  detected_environment (analysis_results report) = "Uncategorized" /\
  environment_confidence (analysis_results report) = zero.
Proof.
  intros Hrun Hempty.
  pose proof (@report_environment _ _ _ _ _ _ _ Hrun) as H.
  rewrite Hempty, first_match_no_detections in H. now injection H.
Qed.

Lemma no_detections_uncategorized_witness :
  exists report out,
    analyze_video_background Example.net Example.detector ["gone"]
      Example.declared_assets_only = (Return report, out)
    /\ detected_environment (analysis_results report) = "Uncategorized"
    /\ environment_confidence (analysis_results report) = zero.
Proof.
  eexists. eexists. split; [ vm_compute; reflexivity | ].
  refine (no_detections_uncategorized env_rules Example.net Example.detector ["gone"]
            Example.declared_assets_only _ _);
    vm_compute; reflexivity.
Defined.

(** C5. The asset mismatch strings are those of the manifest entries, in
    manifest order, whose declared count differs from the detected count of
    the label (0 for a label never detected); they follow the environment
    mismatch strings; each embeds the label and both counts; an entry with
    equal counts adds none, and one with unequal counts sets the risk flag to
    "Review Required". *)
Theorem asset_counts_compared
    rules net model image_urls declared report out :
  analyze_with rules net model image_urls declared = (Return report, out) ->
  let dets := detection_stream net model 0 image_urls in
  let unequal := fun entry : string * Z =>
                   negb (snd entry =? detected_count (fst entry) dets) in
  mismatch_highlight report =
    (environment_mismatches declared (detected_environment (analysis_results report))
     ++ map (fun entry =>
               ("Declared '" ++ fst entry ++ ": " ++ PyStr.str_of_int (snd entry)
                ++ "' but detected '" ++ fst entry ++ ": "
                ++ PyStr.str_of_int (detected_count (fst entry) dets) ++ "'")%string)
            (filter unequal (declared_assets_of declared)))%list
  /\ (existsb unequal (declared_assets_of declared) = true ->
      risk_flag report = "Review Required")
  /\ (forall label, detected label dets = false -> detected_count label dets = 0).
Proof.
  intros Hrun dets unequal.
  destruct (@report_mismatches _ _ _ _ _ _ _ Hrun) as [Hm Hf]. fold dets in Hm, Hf.
  split; [ exact Hm | ]. split; [ | intros label; apply detected_count_zero ].
  intros Hex. rewrite Hf.
  apply existsb_exists in Hex. destruct Hex as (entry & Hin & Hne).
  assert (Hin' : In (asset_mismatch (fst entry) (snd entry)
                       (detected_count (fst entry) dets))
                    (asset_mismatches (declared_assets_of declared) dets)).
  { unfold asset_mismatches.
    apply (in_map (fun e => asset_mismatch (fst e) (snd e) (detected_count (fst e) dets))).
    apply filter_In. now split. }
  destruct (asset_mismatches (declared_assets_of declared) dets); [ destruct Hin' | ].
  now destruct (environment_mismatches _ _).
Qed.

Lemma asset_counts_compared_witness :
  exists report out,
    analyze_video_background Example.net Example.detector Example.home_frames
      Example.declared_shop = (Return report, out)
    /\ mismatch_highlight report =
         ["Declared environment 'SHOP' does not match detected environment 'Home'";
          "Declared 'refrigerator: 2' but detected 'refrigerator: 0'"]
    /\ risk_flag report = "Review Required".
Proof.
  eexists. eexists. split; [ vm_compute; reflexivity | ].
  match goal with
  | |- mismatch_highlight ?r = _ /\ _ =>
      assert (Hrun : analyze_with env_rules Example.net Example.detector Example.home_frames
                       Example.declared_shop = (Return r, _))
        by (vm_compute; reflexivity);
      destruct (asset_counts_compared _ _ _ _ _ Hrun) as (Hm & Hf & _)
  end.
  split.
  - rewrite Hm. vm_compute. reflexivity.
  - apply Hf. vm_compute. reflexivity.
Defined.

(** C6. A declared environment that is present (a non-empty string) and
    differs, case-insensitively, from the detected environment yields exactly
    one environment mismatch string, placed before the asset mismatch
    strings, and the risk flag "Review Required", whatever the asset counts. *)
Theorem environment_mismatch_reported
    rules net model image_urls declared report out declared_env :
  analyze_with rules net model image_urls declared = (Return report, out) ->
  environment declared = Some declared_env ->
  declared_env <> "" ->
  PyStr.lower declared_env <> PyStr.lower (detected_environment (analysis_results report)) ->
  let dets := detection_stream net model 0 image_urls in
  mismatch_highlight report =
    ("Declared environment '" ++ declared_env
     ++ "' does not match detected environment '"
     ++ detected_environment (analysis_results report) ++ "'")
    :: asset_mismatches (declared_assets_of declared) dets
  /\ risk_flag report = "Review Required".
Proof.
  intros Hrun Henv Hne Hdiff dets.
  destruct (@report_mismatches _ _ _ _ _ _ _ Hrun) as [Hm Hf]. fold dets in Hm, Hf.
  assert (He : environment_mismatches declared
                 (detected_environment (analysis_results report)) =
               [environment_mismatch declared_env
                  (detected_environment (analysis_results report))]).
  { unfold environment_mismatches. rewrite Henv.
    apply String.eqb_neq in Hdiff. rewrite Hdiff.
    destruct declared_env; [ congruence | reflexivity ]. }
  rewrite He in Hm, Hf. split; assumption.
Qed.

Lemma environment_mismatch_reported_witness :
  exists report out,
    analyze_video_background Example.net Example.detector ["kitchen"]
      Example.declared_shop = (Return report, out)
    /\ mismatch_highlight report =
         ["Declared environment 'SHOP' does not match detected environment 'Home'";
          "Declared 'refrigerator: 2' but detected 'refrigerator: 1'";
          "Declared 'sofa: 1' but detected 'sofa: 0'"]
    /\ risk_flag report = "Review Required".
Proof.
  eexists. eexists. split; [ vm_compute; reflexivity | ].
  match goal with
  | |- mismatch_highlight ?r = _ /\ _ =>
      assert (Hrun : analyze_with env_rules Example.net Example.detector ["kitchen"]
                       Example.declared_shop = (Return r, _))
        by (vm_compute; reflexivity);
      pose proof (@environment_mismatch_reported _ _ _ _ _ _ _ "SHOP" Hrun) as H
  end.
  destruct H as [Hm Hf];
    [ reflexivity | discriminate | vm_compute; discriminate | ].
  split.
  - rewrite Hm. vm_compute. reflexivity.
  - exact Hf.
Defined.

(** C7. The risk flag of a report is "Pass" exactly when the mismatch list is
    empty and "Review Required" exactly when it is not; it takes no other
    value. *)
Theorem risk_flag_reflects_mismatches
    rules net model image_urls declared report out :
  analyze_with rules net model image_urls declared = (Return report, out) ->
  (risk_flag report = "Pass" <-> mismatch_highlight report = []) /\
  (risk_flag report = "Review Required" <-> mismatch_highlight report <> []) /\
  (risk_flag report = "Pass" \/ risk_flag report = "Review Required").
Proof.
  intros Hrun.
  destruct (@report_mismatches _ _ _ _ _ _ _ Hrun) as [Hm Hf].
  rewrite Hf, Hm.
  destruct (_ ++ _)%list; unfold pass, review_required.
  - repeat split; auto; try discriminate; try congruence.
  - repeat split; auto; try discriminate; try congruence.
Qed.

Lemma risk_flag_reflects_mismatches_witness :
  exists report out,
    analyze_video_background Example.net Example.detector Example.home_frames
      Example.declared_home = (Return report, out)
    /\ mismatch_highlight report = []
    /\ risk_flag report = "Pass".
Proof.
  eexists. eexists. split; [ vm_compute; reflexivity | ].
  match goal with
  | |- mismatch_highlight ?r = _ /\ _ =>
      assert (Hrun : analyze_with env_rules Example.net Example.detector Example.home_frames
                       Example.declared_home = (Return r, _))
        by (vm_compute; reflexivity);
      destruct (risk_flag_reflects_mismatches _ _ _ _ _ Hrun) as ([_ Hpass] & _ & _)
  end.
  split; [ reflexivity | ]. apply Hpass. reflexivity.
Defined.

(** C10. When the manifest has no ["environment"] key, or its value is the
    empty string, the mismatch list holds the asset mismatch strings only,
    and the risk flag is "Review Required" exactly when some manifest entry's
    declared count differs from the detected count. *)
Theorem absent_environment_not_compared
    rules net model image_urls declared report out :
  analyze_with rules net model image_urls declared = (Return report, out) ->
  environment declared = None \/ environment declared = Some "" ->
  let dets := detection_stream net model 0 image_urls in
  mismatch_highlight report = asset_mismatches (declared_assets_of declared) dets
  /\ (risk_flag report = "Review Required" <->
      exists asset declared_count,
        In (asset, declared_count) (declared_assets_of declared) /\
        declared_count <> detected_count asset dets).
Proof.
  intros Hrun Henv dets.
  destruct (@report_mismatches _ _ _ _ _ _ _ Hrun) as [Hm Hf]. fold dets in Hm, Hf.
  assert (He : environment_mismatches declared
                 (detected_environment (analysis_results report)) = []).
  { unfold environment_mismatches. now destruct Henv as [-> | ->]. }
  rewrite He in Hm, Hf. simpl in Hm, Hf. split; [ exact Hm | ].
  rewrite Hf. unfold asset_mismatches. split.
  - intros Hflag.
    destruct (filter _ (declared_assets_of declared)) as [ | [asset c] rest ] eqn:E;
      [ discriminate | ].
    assert (Hin : In (asset, c)
                     (filter (fun entry => negb (snd entry =? detected_count (fst entry) dets))
                             (declared_assets_of declared)))
      by (rewrite E; now left).
    apply filter_In in Hin. destruct Hin as [Hin Hne]. simpl in Hne.
    exists asset, c. split; [ assumption | ].
    apply negb_true_iff, Z.eqb_neq in Hne. assumption.
  - intros (asset & c & Hin & Hne).
    assert (Hin' : In (asset, c)
                      (filter (fun entry => negb (snd entry =? detected_count (fst entry) dets))
                              (declared_assets_of declared))).
    { apply filter_In. split; [ assumption | ].
      simpl. now apply negb_true_iff, Z.eqb_neq. }
    destruct (filter _ (declared_assets_of declared)); [ destruct Hin' | reflexivity ].
Qed.

Lemma absent_environment_not_compared_witness :
  exists report out,
    analyze_video_background Example.net Example.detector Example.home_frames
      Example.declared_assets_only = (Return report, out)
    /\ detected_environment (analysis_results report) = "Home"
    /\ mismatch_highlight report = ["Declared 'counter: 1' but detected 'counter: 0'"]
    /\ risk_flag report = "Review Required".
Proof.
  eexists. eexists. split; [ vm_compute; reflexivity | ].
  match goal with
  | |- detected_environment (analysis_results ?r) = _ /\ _ =>
      assert (Hrun : analyze_with env_rules Example.net Example.detector Example.home_frames
                       Example.declared_assets_only = (Return r, _))
        by (vm_compute; reflexivity);
      destruct (absent_environment_not_compared _ _ _ _ _ Hrun (or_introl eq_refl))
        as [Hm Hf]
  end.
  split; [ reflexivity | ]. split.
  - rewrite Hm. vm_compute. reflexivity.
  - apply Hf. exists "counter", 1. split; [ right; left; reflexivity | ].
    vm_compute. discriminate.
Defined.

(** C8 (as the code has it). A frame whose [try] block raises a request
    exception (the image cannot be fetched, or the reply has an error status)
    contributes no detection: the loop prints the frame line and the error
    line and goes on with the remaining frames from the same accumulators;
    when the other frames are recoverable the loop runs to its end. *)
Theorem request_failure_skips_frame
    net model n i pre image_url post st e :
  fetch_and_predict net model (i + Z.of_nat (List.length pre)) image_url = Raise e ->
  is_request_exception (exn_cls e) = true ->
  frame_detections net model (i + Z.of_nat (List.length pre)) image_url = [] /\
  frames_loop net model n i (pre ++ image_url :: post) st =
  (st' <- frames_loop net model n i pre st ;;
   print ("  Processing frame "
          ++ PyStr.str_of_int (i + Z.of_nat (List.length pre) + 1) ++ "/"
          ++ PyStr.str_of_int n ++ ": " ++ image_url) ;;
   print ("  Error fetching image from URL " ++ image_url ++ ": " ++ exn_msg e) ;;
   frames_loop net model n (i + Z.of_nat (List.length pre) + 1) post st') /\
  (frames_recoverable net model i pre = true ->
   frames_recoverable net model (i + Z.of_nat (List.length pre) + 1) post = true ->
   exists st' out,
     frames_loop net model n i (pre ++ image_url :: post) st = (Return st', out)).
Proof.
  intros Hraise Hreq. split; [ | split ].
  - unfold frame_detections. now rewrite Hraise.
  - rewrite frames_loop_app. apply bind_ext. intros st'.
    now rewrite frames_loop_cons, Hraise, Hreq.
  - intros Hpre Hpost. apply frames_loop_returns.
    rewrite frames_recoverable_app, Hpre. cbn [frames_recoverable andb].
    now rewrite Hraise, Hreq, Hpost.
Qed.

Lemma request_failure_skips_frame_witness :
  frame_detections Example.net Example.detector 1 "gone" = [] /\
  frames_loop Example.net Example.detector 3 0 Example.home_frames empty_stats =
  (st' <- frames_loop Example.net Example.detector 3 0 ["living room"] empty_stats ;;
   print "  Processing frame 2/3: gone" ;;
   print "  Error fetching image from URL gone: connection refused" ;;
   frames_loop Example.net Example.detector 3 2 ["dining room"] st') /\
  exists st' out,
    frames_loop Example.net Example.detector 3 0 Example.home_frames empty_stats =
    (Return st', out).
Proof.
  destruct (@request_failure_skips_frame Example.net Example.detector 3 0
              ["living room"] "gone" ["dining room"] empty_stats
              {| exn_cls := ConnectionError; exn_msg := "connection refused" |}
              eq_refl eq_refl) as (Hnone & Hloop & Hends).
  split; [ exact Hnone | ]. split; [ exact Hloop | ].
  apply Hends; reflexivity.
Defined.

(** C8, the claim as stated fails: the detector raising an exception that is
    not a request exception on the first of two frames ends the run; the
    second frame is never processed and no report is produced. *)
Lemma predict_failure_aborts_scenario :
  fetch_and_predict Example.net Example.detector 0 "corrupt" =
    Raise {| exn_cls := OtherException; exn_msg := "cannot identify image file" |}
  /\ analyze_video_background Example.net Example.detector ["corrupt"; "kitchen"]
       Example.declared_shop =
     (Raise {| exn_cls := OtherException; exn_msg := "cannot identify image file" |},
      [newline ++ "Analyzing video background with 2 frames...";
       "  Processing frame 1/2: corrupt"]).
Proof. split; vm_compute; reflexivity. Qed.

(** C9, the failing input: with a configured access key, a 200 reply whose
    body is the JSON object [{}] makes the function raise [KeyError] instead
    of returning the empty list. *)
Lemma malformed_body_raises :
  fetch_image_urls_from_unsplash Example.net "configured-key" "living room" 3 =
  (Raise {| exn_cls := KeyError; exn_msg := "'results'" |}, []).
Proof. vm_compute. reflexivity. Qed.

(** * Further properties of the code *)

(** ** The accumulators as a fold over the detection stream *)

Lemma accumulate_app a b st : accumulate (a ++ b) st = accumulate b (accumulate a st).
Proof. apply fold_left_app. Qed.

Lemma record_boxes_accumulate model boxes :
  forall st st',
    record_boxes model boxes st = Return st' ->
    exists new, label_boxes model boxes = Return new /\ st' = accumulate new st.
Proof.
  unfold label_boxes.
  induction boxes as [ | box boxes IH ]; simpl; intros st st' Hrun.
  - injection Hrun as <-. now exists [].
  - destruct (names_get (cls box) (names model)) as [item_name | e]; simpl in *;
      [ | discriminate ].
    destruct (IH _ _ Hrun) as (new & -> & ->). simpl. eauto.
Qed.

Lemma frames_loop_accumulate net model n image_urls :
  forall i st st' out,
    frames_loop net model n i image_urls st = (Return st', out) ->
    st' = accumulate (detection_stream net model i image_urls) st.
Proof.
  induction image_urls as [ | image_url rest IH ]; intros i st st' out Hrun.
  - now injection Hrun as <- _.
  - rewrite frames_loop_cons in Hrun.
    apply bind_returns in Hrun. destruct Hrun as ([] & out1 & out2 & _ & Hrun & _).
    cbn [detection_stream]. unfold frame_detections. rewrite accumulate_app.
    destruct (fetch_and_predict net model i image_url) as [[ | boxes results] | e].
    + simpl. eauto.
    + apply bind_returns in Hrun. destruct Hrun as (st1 & o1 & o2 & Hboxes & Hrest & _).
      unfold lift in Hboxes. injection Hboxes as Hboxes _.
      destruct (record_boxes_accumulate _ _ _ Hboxes) as (new & -> & ->). eauto.
    + destruct (is_request_exception (exn_cls e)); [ | discriminate ].
      apply bind_returns in Hrun. destruct Hrun as ([] & o1 & o2 & _ & Hrest & _).
      simpl. eauto.
Qed.

Lemma contains_keys {V} k (d : PyDict.t V) :
  PyDict.contains k d = existsb (String.eqb k) (PyDict.keys d).
Proof.
  unfold PyDict.contains.
  induction d as [ | [k' v] d IH ]; simpl; [ reflexivity | ].
  destruct (String.eqb k k'); simpl; auto.
Qed.

Lemma keys_accumulate dets :
  forall st,
    PyDict.keys (all_detected_items st) = PyDict.keys (all_detected_counts st) ->
    let seen := fold_left (fun seen label =>
                             if existsb (String.eqb label) seen then seen
                             else (seen ++ [label])%list)
                          (map fst dets) (PyDict.keys (all_detected_items st)) in
    PyDict.keys (all_detected_items (accumulate dets st)) = seen /\
    PyDict.keys (all_detected_counts (accumulate dets st)) = seen.
Proof.
  induction dets as [ | [l c] dets IH ]; intros st Hsame; simpl.
  - auto.
  - assert (Hi : PyDict.keys (all_detected_items (record_detection st l c)) =
                 if existsb (String.eqb l) (PyDict.keys (all_detected_items st))
                 then PyDict.keys (all_detected_items st)
                 else (PyDict.keys (all_detected_items st) ++ [l])%list).
    { simpl. now rewrite keys_set, contains_keys. }
    assert (Hc : PyDict.keys (all_detected_counts (record_detection st l c)) =
                 PyDict.keys (all_detected_items (record_detection st l c))).
    { rewrite Hi. simpl. now rewrite keys_set, contains_keys, <- Hsame. }
    specialize (IH (record_detection st l c) (eq_sym Hc)). cbv zeta in IH.
    rewrite Hi in IH. exact IH.
Qed.

Lemma keys_of_stream dets :
  PyDict.keys (all_detected_items (accumulate dets empty_stats)) = first_seen (map fst dets) /\
  PyDict.keys (all_detected_counts (accumulate dets empty_stats)) = first_seen (map fst dets).
Proof. apply (keys_accumulate dets empty_stats). reflexivity. Qed.

Lemma accumulates_accumulate dets : accumulates (accumulate dets empty_stats) dets.
Proof.
  induction dets as [ | [l c] dets IH ] using rev_ind.
  - apply accumulates_empty.
  - rewrite accumulate_app. simpl. now apply accumulates_record.
Qed.

(** The report of a run is built from the fold of its detection stream. *)
Lemma analyze_with_accumulate rules net model image_urls declared report out :
  analyze_with rules net model image_urls declared = (Return report, out) ->
  build_report rules declared
    (accumulate (detection_stream net model 0 image_urls) empty_stats) = Return report.
Proof.
  unfold analyze_with. intros H.
  apply bind_returns in H. destruct H as ([] & o1 & o2 & _ & H & _).
  apply bind_returns in H. destruct H as (st & o3 & o4 & Hloop & Hrep & _).
  apply frames_loop_accumulate in Hloop. subst st.
  unfold lift in Hrep. now injection Hrep.
Qed.

Lemma omap_map {A B} (f : A -> outcome B) (g : A -> B) l :
  (forall a, In a l -> f a = Return (g a)) -> omap f l = Return (map g l).
Proof.
  induction l as [ | a l IH ]; simpl; intros H; [ reflexivity | ].
  rewrite (H a (or_introl eq_refl)). simpl. rewrite IH by auto. reflexivity.
Qed.

Lemma report_rows_in_order rules net model image_urls declared report out :
  analyze_with rules net model image_urls declared = (Return report, out) ->
  let dets := detection_stream net model 0 image_urls in
  detected_objects (analysis_results report) =
  map (object_row_of dets) (first_seen (map fst dets)).
Proof.
  intros Hrun dets. apply analyze_with_accumulate in Hrun. fold dets in Hrun.
  destruct (build_report_fields _ _ _ Hrun) as (_ & _ & Hrows & _).
  pose proof (accumulates_accumulate dets) as Hacc.
  rewrite (@omap_map _ _ _ (fun entry => object_row_of dets (fst entry))) in Hrows.
  - injection Hrows as <-. rewrite <- (proj1 (keys_of_stream dets)).
    unfold PyDict.keys. now rewrite map_map.
  - intros [label cs] Hin.
    destruct (object_row_accumulated _ _ Hacc Hin) as (_ & _ & Hrow). exact Hrow.
Qed.

Lemma first_seen_from_spec labels :
  forall seen,
    NoDup seen ->
    let result := fold_left (fun seen label =>
                               if existsb (String.eqb label) seen then seen
                               else (seen ++ [label])%list) labels seen in
    NoDup result /\ forall x, In x result <-> In x seen \/ In x labels.
Proof.
  induction labels as [ | l labels IH ]; intros seen Hnd; simpl.
  - split; [ assumption | intros x; tauto ].
  - destruct (existsb (String.eqb l) seen) eqn:E.
    + destruct (IH seen Hnd) as [Hn Hin]. split; [ exact Hn | ].
      intros x. rewrite Hin.
      apply existsb_exists in E. destruct E as (y & Hy & Heq).
      apply String.eqb_eq in Heq. subst y.
      split; [ tauto | intros [H | [<- | H]]; auto ].
    + assert (Hnot : ~ In l seen).
      { intros Hin. apply (proj2 (not_true_iff_false _) E).
        apply existsb_exists. exists l. split; [ assumption | apply String.eqb_refl ]. }
      assert (Hnd' : NoDup (seen ++ [l])).
      { apply NoDup_rev in Hnd. rewrite <- (rev_involutive (_ ++ _)).
        apply NoDup_rev. rewrite rev_app_distr. simpl. constructor; [ | assumption ].
        now rewrite <- in_rev. }
      destruct (IH _ Hnd') as [Hn Hin]. split; [ exact Hn | ].
      intros x. rewrite Hin, in_app_iff. simpl. tauto.
Qed.

Lemma first_seen_spec labels :
  NoDup (first_seen labels) /\ forall x, In x (first_seen labels) <-> In x labels.
Proof.
  destruct (first_seen_from_spec labels (NoDup_nil _)) as [Hn Hin].
  split; [ exact Hn | ]. intros x. rewrite (Hin x). simpl. tauto.
Qed.

Lemma int_sum_fold_right xs : int_sum xs = fold_right Z.add 0 xs.
Proof.
  unfold int_sum. apply fold_symmetric; intros; lia.
Qed.

Lemma detected_count_cons label d dets :
  detected_count label (d :: dets) =
  (if String.eqb label (fst d) then 1 else 0) + detected_count label dets.
Proof.
  unfold detected_count, recorded. cbn [filter].
  destruct (String.eqb label (fst d)); cbn [map List.length]; lia.
Qed.

Lemma detected_count_nil label : detected_count label [] = 0.
Proof. reflexivity. Qed.

Lemma count_of_new_detection d dets ls :
  NoDup ls ->
  fold_right Z.add 0 (map (fun label => detected_count label (d :: dets)) ls) =
  (if existsb (String.eqb (fst d)) ls then 1 else 0)
  + fold_right Z.add 0 (map (fun label => detected_count label dets) ls).
Proof.
  induction ls as [ | l ls IHls ]; intros Hn; [ reflexivity | ].
  inversion Hn as [ | ? ? Hnot Hn' ]; subst.
  cbn [map fold_right existsb]. rewrite (IHls Hn'), detected_count_cons.
  rewrite (String.eqb_sym (fst d) l).
  destruct (String.eqb l (fst d)) eqn:E; cbn [orb]; [ | lia ].
  apply String.eqb_eq in E. subst l.
  replace (existsb (String.eqb (fst d)) ls) with false; [ lia | ].
  symmetry. apply not_true_iff_false. intros Hex.
  apply existsb_exists in Hex. destruct Hex as (y & Hy & Heq).
  apply String.eqb_eq in Heq. now subst y.
Qed.

Lemma count_over_labels dets :
  forall labels,
    NoDup labels ->
    (forall d, In d dets -> In (fst d) labels) ->
    fold_right Z.add 0 (map (fun label => detected_count label dets) labels) =
    Z.of_nat (List.length dets).
Proof.
  induction dets as [ | d dets IH ]; intros labels Hnd Hall.
  - clear. induction labels as [ | l ls IHl ]; [ reflexivity | ].
    cbn [map fold_right]. rewrite IHl, detected_count_nil. reflexivity.
  - rewrite (count_of_new_detection d dets Hnd), (IH labels Hnd)
      by (intros; apply Hall; now right).
    replace (existsb (String.eqb (fst d)) labels) with true.
    + cbn [List.length]. lia.
    + symmetry. apply existsb_exists. exists (fst d).
      split; [ apply Hall; now left | apply String.eqb_refl ].
Qed.

(** X1. The rows of [detected_objects] are one per detected label, in the
    order in which the labels were first detected across the frames; each
    row carries the title-cased label, its count and its rounded mean. *)
Theorem rows_follow_first_detection
    rules net model image_urls declared report out :
  analyze_with rules net model image_urls declared = (Return report, out) ->
  let dets := detection_stream net model 0 image_urls in
  let labels := first_seen (map fst dets) in
  detected_objects (analysis_results report) =
    map (fun label =>
           {| item := PyStr.title label;
              count := detected_count label dets;
              avg_confidence :=
                PyFloat.round2 (PyFloat.sum (recorded label dets)
                                / PyFloat.of_int (detected_count label dets))%float |})
        labels
  /\ NoDup labels
  /\ (forall label, In label labels <-> detected label dets = true).
Proof.
  intros Hrun dets labels. split; [ apply (report_rows_in_order _ _ _ _ _ Hrun) | ].
  destruct (first_seen_spec (map fst dets)) as [Hnd Hin]. split; [ exact Hnd | ].
  intros label. unfold labels. rewrite Hin. unfold detected.
  rewrite in_map_iff. split.
  - intros (d & <- & Hd). apply existsb_exists. exists d.
    split; [ assumption | apply String.eqb_refl ].
  - intros Hex. apply existsb_exists in Hex. destruct Hex as (d & Hd & Heq).
    apply String.eqb_eq in Heq. eauto.
Qed.

Lemma rows_follow_first_detection_witness :
  exists report out,
    analyze_video_background Example.net Example.detector Example.home_frames
      Example.declared_home = (Return report, out)
    /\ map item (detected_objects (analysis_results report)) = ["Sofa"; "Chair"]
    /\ map count (detected_objects (analysis_results report)) = [1; 2].
Proof.
  eexists. eexists. split; [ vm_compute; reflexivity | ].
  match goal with
  | |- map item (detected_objects (analysis_results ?r)) = _ /\ _ =>
      assert (Hrun : analyze_with env_rules Example.net Example.detector Example.home_frames
                       Example.declared_home = (Return r, _))
        by (vm_compute; reflexivity);
      destruct (rows_follow_first_detection _ _ _ _ _ Hrun) as (Hrows & _ & _)
  end.
  rewrite Hrows. split; vm_compute; reflexivity.
Defined.

(** X2. The counts of the rows add up to the number of detections of the
    run: every box of every processed frame is counted once, with no
    deduplication across frames. *)
Theorem counts_add_up
    rules net model image_urls declared report out :
  analyze_with rules net model image_urls declared = (Return report, out) ->
  int_sum (map count (detected_objects (analysis_results report))) =
  Z.of_nat (List.length (detection_stream net model 0 image_urls)).
Proof.
  intros Hrun. rewrite (report_rows_in_order _ _ _ _ _ Hrun), map_map. simpl.
  rewrite int_sum_fold_right.
  destruct (first_seen_spec (map fst (detection_stream net model 0 image_urls)))
    as [Hnd Hin].
  apply count_over_labels; [ exact Hnd | ].
  intros d Hd. apply Hin. now apply in_map.
Qed.

Lemma counts_add_up_witness :
  exists report out,
    analyze_video_background Example.net Example.detector Example.home_frames
      Example.declared_home = (Return report, out)
    /\ int_sum (map count (detected_objects (analysis_results report))) = 3.
Proof.
  eexists. eexists. split; [ vm_compute; reflexivity | ].
  match goal with
  | |- int_sum (map count (detected_objects (analysis_results ?r))) = _ =>
      assert (Hrun : analyze_with env_rules Example.net Example.detector Example.home_frames
                       Example.declared_home = (Return r, _))
        by (vm_compute; reflexivity);
      rewrite (counts_add_up _ _ _ _ _ Hrun)
  end.
  vm_compute. reflexivity.
Defined.

(** ** The accumulators *)

(** X3. After the frame loop the two accumulators have the same keys in the
    same order, without repetition; a label's confidence list is never
    empty and its count is the length of that list; a label absent from one
    is absent from the other. *)
Theorem accumulators_agree net model n image_urls st out :
  frames_loop net model n 0 image_urls empty_stats = (Return st, out) ->
  PyDict.keys (all_detected_items st) = PyDict.keys (all_detected_counts st) /\
  NoDup (PyDict.keys (all_detected_items st)) /\
  (forall label confidences,
      PyDict.get label (all_detected_items st) = Some confidences ->
      confidences <> [] /\
      PyDict.get label (all_detected_counts st) =
        Some (Z.of_nat (List.length confidences))) /\
  (forall label,
      PyDict.get label (all_detected_items st) = None ->
      PyDict.get label (all_detected_counts st) = None).
Proof.
  intros Hrun. apply frames_loop_accumulate in Hrun. subst st.
  set (dets := detection_stream net model 0 image_urls).
  destruct (keys_of_stream dets) as [Hi Hc].
  pose proof (accumulates_accumulate dets) as Hacc.
  split; [ now rewrite Hi, Hc | ]. split; [ apply (acc_nodup Hacc) | ]. split.
  - intros label cs Hget. rewrite (acc_items Hacc) in Hget.
    rewrite (acc_counts Hacc).
    destruct (recorded label dets) eqn:E; simpl in *; [ discriminate | ].
    injection Hget as <-. split; [ discriminate | reflexivity ].
  - intros label Hget. rewrite (acc_items Hacc) in Hget.
    rewrite (acc_counts Hacc).
    destruct (recorded label dets); [ reflexivity | discriminate ].
Qed.

Lemma accumulators_agree_witness :
  exists st out,
    frames_loop Example.net Example.detector 3 0 Example.home_frames empty_stats
      = (Return st, out)
    /\ PyDict.keys (all_detected_items st) = ["sofa"; "chair"]
    /\ PyDict.keys (all_detected_counts st) = ["sofa"; "chair"]
    /\ PyDict.get "chair" (all_detected_counts st) = Some 2.
Proof.
  eexists. eexists. split; [ vm_compute; reflexivity | ].
  match goal with
  | |- PyDict.keys (all_detected_items ?s) = _ /\ _ =>
      assert (Hrun : frames_loop Example.net Example.detector 3 0 Example.home_frames
                       empty_stats = (Return s, _))
        by (vm_compute; reflexivity);
      destruct (accumulators_agree _ _ _ _ Hrun) as (Hkeys & _ & Hcount & _)
  end.
  split; [ vm_compute; reflexivity | ]. split; [ rewrite <- Hkeys; vm_compute; reflexivity | ].
  destruct (Hcount "chair" [0.8; 0.7]%float) as [_ Hc]; [ vm_compute; reflexivity | ].
  exact Hc.
Defined.

(** ** When a report passes *)

Lemma asset_mismatches_nil declared_assets dets :
  asset_mismatches declared_assets dets = [] <->
  Forall (fun entry => snd entry = detected_count (fst entry) dets) declared_assets.
Proof.
  unfold asset_mismatches.
  induction declared_assets as [ | [asset c] rest IH ]; simpl.
  - split; [ constructor | reflexivity ].
  - destruct (c =? detected_count asset dets) eqn:E; simpl.
    + apply Z.eqb_eq in E. rewrite IH. split.
      * intros H. constructor; assumption.
      * intros H. now inversion H.
    + apply Z.eqb_neq in E. split; [ discriminate | ].
      intros H. inversion H; subst. simpl in *. congruence.
Qed.

Lemma environment_mismatches_nil declared detected_environment :
  environment_mismatches declared detected_environment = [] <->
  match environment declared with
  | None => True
  | Some declared_env =>
      declared_env = "" \/
      PyStr.lower declared_env = PyStr.lower detected_environment
  end.
Proof.
  unfold environment_mismatches.
  destruct (environment declared) as [e | ]; [ | tauto ].
  destruct e as [ | c e ]; cbn [PyStr.truthy andb]; [ tauto | ].
  destruct (String.eqb (PyStr.lower (String c e)) (PyStr.lower detected_environment))
    eqn:E; cbn [negb].
  - apply String.eqb_eq in E. tauto.
  - apply String.eqb_neq in E. split; [ discriminate | ].
    intros [H | H]; [ discriminate | contradiction ].
Qed.

(** X4. A report is flagged "Pass" exactly when the declared environment is
    absent, empty or equal to the detected one up to case, and every
    declared asset count equals the detected count of its label.  Detected
    labels that the manifest does not declare play no part. *)
Theorem pass_exactly_when_declared_matches
    rules net model image_urls declared report out :
  analyze_with rules net model image_urls declared = (Return report, out) ->
  let dets := detection_stream net model 0 image_urls in
  risk_flag report = "Pass" <->
  match environment declared with
  | None => True
  | Some declared_env =>
      declared_env = "" \/
      PyStr.lower declared_env =
        PyStr.lower (detected_environment (analysis_results report))
  end /\
  Forall (fun entry => snd entry = detected_count (fst entry) dets)
         (declared_assets_of declared).
Proof.
  intros Hrun dets.
  destruct (@report_mismatches _ _ _ _ _ _ _ Hrun) as [_ Hf]. fold dets in Hf.
  rewrite Hf, <- environment_mismatches_nil, <- asset_mismatches_nil.
  destruct (environment_mismatches declared _); simpl.
  - destruct (asset_mismatches _ _); unfold pass, review_required.
    + tauto.
    + split; [ discriminate | intros [_ H]; discriminate ].
  - unfold pass, review_required. split; [ discriminate | intros [H _]; discriminate ].
Qed.

Lemma pass_exactly_when_declared_matches_witness :
  exists report out,
    analyze_video_background Example.net Example.detector Example.home_frames
      Example.declared_home = (Return report, out)
    /\ risk_flag report = "Pass".
Proof.
  eexists. eexists. split; [ vm_compute; reflexivity | ].
  match goal with
  | |- risk_flag ?r = _ =>
      assert (Hrun : analyze_with env_rules Example.net Example.detector Example.home_frames
                       Example.declared_home = (Return r, _))
        by (vm_compute; reflexivity);
      apply (pass_exactly_when_declared_matches _ _ _ _ _ Hrun)
  end.
  split.
  - right. vm_compute. reflexivity.
  - repeat constructor.
Defined.

(** ** The declared data do not reach the detection results *)

(** X5. The declared data do not reach the detection results: the same
    frames analysed against another manifest give the same
    [analysis_results] and the same printed lines, and each report carries
    the manifest it was given. *)
Theorem declared_data_do_not_steer_detection
    rules net model image_urls declared declared' report out :
  analyze_with rules net model image_urls declared = (Return report, out) ->
  exists report',
    analyze_with rules net model image_urls declared' = (Return report', out) /\
    analysis_results report' = analysis_results report /\
    declared_data report' = declared' /\
    declared_data report = declared.
Proof.
  intros Hrun.
  pose proof (analyze_with_accumulate _ _ _ _ _ Hrun) as Hrep.
  set (st := accumulate (detection_stream net model 0 image_urls) empty_stats) in *.
  assert (Hrep' : exists report',
             build_report rules declared' st = Return report' /\
             analysis_results report' = analysis_results report /\
             declared_data report' = declared' /\ declared_data report = declared).
  { unfold build_report in Hrep |- *.
    destruct (classify rules st) as [env c].
    destruct (compare_declared declared env st) as [ms rf].
    destruct (compare_declared declared' env st) as [ms' rf'].
    destruct (omap (object_row st) (PyDict.items (all_detected_items st))) as [rows | e];
      simpl in Hrep |- *; [ | discriminate ].
    injection Hrep as <-. eexists. split; [ reflexivity | simpl; auto ]. }
  destruct Hrep' as (report' & Hrep' & Hsame).
  exists report'. split; [ | exact Hsame ].
  unfold analyze_with in *.
  apply bind_returns in Hrun. destruct Hrun as ([] & o1 & o2 & Hp & H & ->).
  apply bind_returns in H. destruct H as (st0 & o3 & o4 & Hloop & Hlift & ->).
  pose proof (frames_loop_accumulate _ _ _ _ _ _ Hloop) as Hst. fold st in Hst. subst st0.
  unfold lift in Hlift. injection Hlift as _ <-.
  injection Hp as <-.
  unfold bind, print, lift. now rewrite Hloop, Hrep'.
Qed.

Lemma declared_data_do_not_steer_detection_witness :
  exists report out report',
    analyze_video_background Example.net Example.detector Example.home_frames
      Example.declared_home = (Return report, out)
    /\ analyze_video_background Example.net Example.detector Example.home_frames
         Example.declared_shop = (Return report', out)
    /\ analysis_results report' = analysis_results report.
Proof.
  eexists. eexists.
  match goal with
  | |- exists report', ?run = (Return ?r, ?o) /\ _ =>
      assert (Hrun : analyze_with env_rules Example.net Example.detector Example.home_frames
                       Example.declared_home = (Return r, o))
        by (vm_compute; reflexivity);
      destruct (@declared_data_do_not_steer_detection _ _ _ _ _ Example.declared_shop _ _ Hrun)
        as (report' & Hrun' & Hsame & _)
  end.
  exists report'. split; [ exact Hrun | ]. split; [ exact Hrun' | exact Hsame ].
Defined.

(** ** The fixed rule table *)

(** X6. With the rule table of the source, the environment is "Home" exactly
    when a Home label is detected (so also for a chair or a refrigerator,
    which Office and Shop list too), "Office" exactly when no Home label
    and one of its other four labels is detected, "Shop" exactly when no
    Home or Office label and one of its other four labels is detected,
    and "Uncategorized" exactly when none of these is detected. *)
Theorem environment_of_fixed_table net model image_urls declared report out :
  analyze_video_background net model image_urls declared = (Return report, out) ->
  let dets := detection_stream net model 0 image_urls in
  let env := detected_environment (analysis_results report) in
  let home := ["bed"; "sofa"; "tv"; "refrigerator"; "microwave"; "chair"; "dining table"] in
  let office := ["desk"; "computer"; "whiteboard"; "meeting table"] in
  let shop := ["shelf"; "counter"; "bottled products"; "packaged boxes"] in
  (env = "Home" <-> intersects home dets = true) /\
  (env = "Office" <-> intersects home dets = false /\ intersects office dets = true) /\
  (env = "Shop" <->
     intersects home dets = false /\ intersects office dets = false /\
     intersects shop dets = true) /\
  (env = "Uncategorized" <->
     intersects home dets = false /\ intersects office dets = false /\
     intersects shop dets = false).
Proof.
  intros Hrun dets env home office shop.
  pose proof (@report_environment _ _ _ _ _ _ _ Hrun) as H. fold dets in H.
  assert (Henv : env = match first_match env_rules dets with
                       | Some rule => fst rule
                       | None => "Uncategorized"
                       end).
  { unfold env. destruct (first_match env_rules dets); now injection H. }
  clear H. unfold first_match, env_rules in Henv. cbn [find snd fst] in Henv.
  assert (Hoffice : intersects ["desk"; "computer"; "whiteboard"; "chair"; "meeting table"]
                      dets = (intersects office dets || detected "chair" dets)%bool).
  { unfold intersects, office. cbn [existsb].
    destruct (detected "desk" dets), (detected "computer" dets),
      (detected "whiteboard" dets), (detected "chair" dets),
      (detected "meeting table" dets); reflexivity. }
  assert (Hshop : intersects ["shelf"; "counter"; "bottled products"; "packaged boxes";
                              "refrigerator"] dets =
                  (intersects shop dets || detected "refrigerator" dets)%bool).
  { unfold intersects, shop. cbn [existsb].
    destruct (detected "shelf" dets), (detected "counter" dets),
      (detected "bottled products" dets), (detected "packaged boxes" dets),
      (detected "refrigerator" dets); reflexivity. }
  assert (Hhome : intersects home dets = false ->
                  detected "chair" dets = false /\ detected "refrigerator" dets = false).
  { unfold intersects, home. cbn [existsb]. intros Hh.
    repeat (apply orb_false_iff in Hh; destruct Hh as [? Hh]). auto. }
  rewrite Hoffice, Hshop in Henv. fold home in Henv.
  destruct (intersects home dets) eqn:Eh.
  - rewrite Henv. repeat split; try discriminate; try tauto;
      intros Hc; destruct Hc; discriminate.
  - destruct (Hhome eq_refl) as [Hchair Hfridge]. rewrite Hchair, Hfridge in Henv.
    rewrite !orb_false_r in Henv.
    destruct (intersects office dets) eqn:Eo; [ | destruct (intersects shop dets) eqn:Es ];
      rewrite Henv; repeat split; try discriminate; try tauto;
      intros Hc; decompose [and] Hc; discriminate.
Qed.

Lemma environment_of_fixed_table_witness :
  exists report out,
    analyze_video_background Example.net Example.detector ["kitchen"]
      Example.declared_shop = (Return report, out)
    /\ detected_environment (analysis_results report) = "Home".
Proof.
  eexists. eexists. split; [ vm_compute; reflexivity | ].
  match goal with
  | |- detected_environment (analysis_results ?r) = _ =>
      assert (Hrun : analyze_video_background Example.net Example.detector ["kitchen"]
                       Example.declared_shop = (Return r, _))
        by (vm_compute; reflexivity);
      destruct (environment_of_fixed_table _ _ _ _ Hrun) as ([_ Hhome] & _)
  end.
  apply Hhome. vm_compute. reflexivity.
Defined.

(** ** A call with no frame *)

Lemma build_report_without_detections rules declared :
  build_report rules declared empty_stats = Return (report_without_frames declared).
Proof.
  unfold build_report.
  rewrite (classify_accumulated rules accumulates_empty), first_match_no_detections.
  rewrite (compare_declared_accumulated declared "Uncategorized" accumulates_empty).
  reflexivity.
Qed.

Lemma analysis_without_frames rules net model declared :
  analyze_with rules net model [] declared =
  (Return (report_without_frames declared),
   [newline ++ "Analyzing video background with 0 frames..."]).
Proof.
  unfold analyze_with. cbn [frames_loop List.length Z.of_nat].
  unfold bind, print, ret, lift. now rewrite build_report_without_detections.
Qed.

(** X7. A call with no frame returns a report: the environment is
    "Uncategorized" with confidence 0.0, no object is listed, every declared
    asset with a count other than 0 is a mismatch, as is a declared
    environment other than "uncategorized" (in any case), and the only line
    printed is the frame count. *)
Theorem report_of_no_frames rules net model declared :
  let mismatches :=
    (environment_mismatches declared "Uncategorized"
     ++ map (fun entry => asset_mismatch (fst entry) (snd entry) 0)
            (filter (fun entry => negb (snd entry =? 0)) (declared_assets_of declared)))%list in
  analyze_with rules net model [] declared =
  (Return {| declared_data := declared;
             analysis_results :=
               {| detected_environment := "Uncategorized";
                  environment_confidence := zero;
                  detected_objects := [] |};
             mismatch_highlight := mismatches;
             risk_flag := match mismatches with
                          | [] => "Pass"
                          | _ :: _ => "Review Required"
                          end |},
   [newline ++ "Analyzing video background with 0 frames..."]).
Proof.
  intros mismatches.
  unfold analyze_with. cbn [frames_loop List.length Z.of_nat].
  unfold bind, print, ret, lift.
  rewrite build_report_without_detections. reflexivity.
Qed.

(** ** When a run raises *)

Lemma names_get_raises class_id tbl e :
  names_get class_id tbl = Raise e -> exn_cls e = KeyError.
Proof.
  induction tbl as [ | [k v] tbl IH ]; simpl.
  - now intros [= <-].
  - destruct (class_id =? k); [ discriminate | exact IH ].
Qed.

Lemma label_boxes_raises model boxes e :
  label_boxes model boxes = Raise e -> exn_cls e = KeyError.
Proof.
  unfold label_boxes.
  induction boxes as [ | box boxes IH ]; simpl; [ discriminate | ].
  destruct (names_get (cls box) (names model)) as [item_name | e0] eqn:Hn; simpl.
  - destruct (omap _ boxes) as [new | e1]; simpl; [ discriminate | ].
    intros [= <-]. now apply IH.
  - intros [= <-]. now apply names_get_raises in Hn.
Qed.

Lemma record_boxes_raises model boxes e :
  label_boxes model boxes = Raise e ->
  forall st, record_boxes model boxes st = Raise e.
Proof.
  unfold label_boxes.
  induction boxes as [ | box boxes IH ]; simpl; [ discriminate | ].
  destruct (names_get (cls box) (names model)) as [item_name | e0]; simpl.
  - destruct (omap _ boxes) as [new | e1]; simpl; [ discriminate | ].
    intros [= <-] st. now apply IH.
  - now intros [= <-] st.
Qed.

Lemma frames_loop_outcome net model n image_urls :
  forall i st,
    match first_failure net model i image_urls with
    | None => exists st' out, frames_loop net model n i image_urls st = (Return st', out)
    | Some e =>
        is_request_exception (exn_cls e) = false /\
        exists out, frames_loop net model n i image_urls st = (Raise e, out)
    end.
Proof.
  induction image_urls as [ | image_url rest IH ]; intros i st.
  - cbn [first_failure frames_loop]. unfold ret. eauto.
  - rewrite frames_loop_cons. cbn [first_failure].
    destruct (fetch_and_predict net model i image_url) as [[ | boxes results] | e].
    + specialize (IH (i + 1) st).
      destruct (first_failure net model (i + 1) rest) as [e | ].
      * destruct IH as (Hc & o & ->). split; [ exact Hc | ]. unfold bind, print. eauto.
      * destruct IH as (st' & o & ->). unfold bind, print. eauto.
    + destruct (label_boxes model boxes) as [new | e] eqn:Hnew.
      * destruct (record_boxes_returns _ _ st Hnew) as (st1 & ->).
        specialize (IH (i + 1) st1).
        destruct (first_failure net model (i + 1) rest) as [e | ].
        -- destruct IH as (Hc & o & Heq). split; [ exact Hc | ].
           unfold bind, print, lift. rewrite Heq. eauto.
        -- destruct IH as (st' & o & Heq). unfold bind, print, lift. rewrite Heq. eauto.
      * split.
        -- now rewrite (label_boxes_raises _ _ Hnew).
        -- rewrite (record_boxes_raises _ _ Hnew st). unfold bind, print, lift. eauto.
    + destruct (is_request_exception (exn_cls e)) eqn:Hreq.
      * specialize (IH (i + 1) st).
        destruct (first_failure net model (i + 1) rest) as [e' | ].
        -- destruct IH as (Hc & o & Heq). split; [ exact Hc | ].
           unfold bind, print. rewrite Heq. eauto.
        -- destruct IH as (st' & o & Heq). unfold bind, print. rewrite Heq. eauto.
      * split; [ exact Hreq | ]. unfold bind, print, raise. eauto.
Qed.

Lemma analysis_outcome rules net model image_urls declared :
  match first_failure net model 0 image_urls with
  | None =>
      exists report out,
        analyze_with rules net model image_urls declared = (Return report, out)
  | Some e =>
      is_request_exception (exn_cls e) = false /\
      exists out,
        analyze_with rules net model image_urls declared = (Raise e, out)
  end.
Proof.
  pose proof (frames_loop_outcome net model (Z.of_nat (List.length image_urls))
                image_urls 0 empty_stats) as H.
  destruct (first_failure net model 0 image_urls) as [e | ].
  - destruct H as (Hc & o & Hloop). split; [ exact Hc | ].
    unfold analyze_with, bind, print. rewrite Hloop. eauto.
  - destruct H as (st & o & Hloop).
    pose proof (frames_loop_accumulates _ _ _ _ _ Hloop accumulates_empty) as Hacc.
    destruct (build_report_returns rules declared Hacc) as (report & Hrep).
    unfold analyze_with, bind, print, lift. rewrite Hloop, Hrep. eauto.
Qed.

(** No request exception leaves the analysis. *)
Lemma analysis_never_raises_request_exception
    rules net model image_urls declared e out :
  analyze_with rules net model image_urls declared = (Raise e, out) ->
  is_request_exception (exn_cls e) = false /\
  first_failure net model 0 image_urls = Some e.
Proof.
  intros Hrun.
  pose proof (analysis_outcome rules net model image_urls declared) as H.
  destruct (first_failure net model 0 image_urls) as [e' | ].
  - destruct H as (Hc & o & Heq). rewrite Heq in Hrun. injection Hrun as -> _. auto.
  - destruct H as (report & o & Heq). rewrite Heq in Hrun. discriminate.
Qed.

(** X8. The analysis raises exactly the exception of the first frame that
    cannot be skipped: a frame whose [try] block raised something other than
    a request exception, or a box whose class id is missing from
    [model.names] (a [KeyError]).  What it raises is never a request
    exception, and when there is no such frame it returns a report. *)
Theorem analysis_raises_first_failure rules net model image_urls declared :
  (forall e,
      (exists out, analyze_with rules net model image_urls declared = (Raise e, out)) <->
      first_failure net model 0 image_urls = Some e) /\
  (forall e,
      first_failure net model 0 image_urls = Some e ->
      is_request_exception (exn_cls e) = false) /\
  ((exists report out,
       analyze_with rules net model image_urls declared = (Return report, out)) <->
   first_failure net model 0 image_urls = None).
Proof.
  pose proof (analysis_outcome rules net model image_urls declared) as H.
  destruct (first_failure net model 0 image_urls) as [e0 | ].
  - destruct H as (Hc & o & Heq). split; [ | split ].
    + intros e. split.
      * intros (out & Hrun). rewrite Heq in Hrun. now injection Hrun as ->.
      * intros [= <-]. eauto.
    + now intros e [= <-].
    + split; [ | discriminate ].
      intros (report & out & Hrun). rewrite Heq in Hrun. discriminate.
  - destruct H as (report & o & Heq). split; [ | split ].
    + intros e. split; [ | discriminate ].
      intros (out & Hrun). rewrite Heq in Hrun. discriminate.
    + discriminate.
    + split; eauto.
Qed.

(** ** The printed lines *)

Lemma frames_loop_lines net model n image_urls :
  forall k st st' out,
    frames_loop net model n (Z.of_nat k) image_urls st = (Return st', out) ->
    out = flat_map (frame_lines net model n)
            (combine (map Z.of_nat (seq k (List.length image_urls))) image_urls).
Proof.
  induction image_urls as [ | image_url rest IH ]; intros k st st' out Hrun.
  - now injection Hrun as _ <-.
  - rewrite frames_loop_cons in Hrun.
    cbn [List.length seq map combine flat_map frame_lines].
    replace (Z.of_nat k + 1) with (Z.of_nat (S k)) in Hrun by lia.
    apply bind_returns in Hrun. destruct Hrun as ([] & out1 & out2 & Hp & Hrun & ->).
    injection Hp as <-.
    replace (Z.of_nat k + 1) with (Z.of_nat (S k)) by lia.
    cbn [app]. f_equal.
    destruct (fetch_and_predict net model (Z.of_nat k) image_url)
      as [[ | boxes results] | e].
    + cbn [app]. eauto.
    + apply bind_returns in Hrun. destruct Hrun as (st1 & o1 & o2 & Hboxes & Hrest & ->).
      unfold lift in Hboxes. injection Hboxes as _ <-. cbn [app]. eauto.
    + destruct (is_request_exception (exn_cls e)); [ | discriminate ].
      apply bind_returns in Hrun. destruct Hrun as ([] & o1 & o2 & Hp & Hrest & ->).
      injection Hp as <-. cbn [app]. f_equal. eauto.
Qed.

(** X9. A run that reaches its end prints the frame count, then for each
    frame, in order, one line numbered from 1 to the frame count with its
    URL, followed by one error line when the frame was skipped; nothing else
    is printed. *)
Theorem printed_lines_of_a_completed_run
    rules net model image_urls declared report out :
  analyze_with rules net model image_urls declared = (Return report, out) ->
  let n := Z.of_nat (List.length image_urls) in
  out = header_line n :: flat_map (frame_lines net model n) (enumerate image_urls).
Proof.
  intros Hrun n. unfold analyze_with in Hrun.
  apply bind_returns in Hrun. destruct Hrun as ([] & o1 & o2 & Hp & H & ->).
  apply bind_returns in H. destruct H as (st & o3 & o4 & Hloop & Hlift & ->).
  injection Hp as <-. unfold lift in Hlift. injection Hlift as _ <-.
  apply (frames_loop_lines net model _ image_urls 0) in Hloop.
  rewrite Hloop, app_nil_r. reflexivity.
Qed.

Lemma printed_lines_of_a_completed_run_witness :
  exists report,
    analyze_video_background Example.net Example.detector Example.home_frames
      Example.declared_home =
    (Return report,
     [newline ++ "Analyzing video background with 3 frames...";
      "  Processing frame 1/3: living room";
      "  Processing frame 2/3: gone";
      "  Error fetching image from URL gone: connection refused";
      "  Processing frame 3/3: dining room"]).
Proof.
  assert (H : exists report out,
             analyze_with env_rules Example.net Example.detector Example.home_frames
               Example.declared_home = (Return report, out))
    by (eexists; eexists; vm_compute; reflexivity).
  destruct H as (report & out & Hrun). exists report.
  unfold analyze_video_background.
  rewrite Hrun, (printed_lines_of_a_completed_run _ _ _ _ _ Hrun). reflexivity.
Defined.

(** ** The image search *)

Lemma omap_regular_urls results :
  forall image_urls,
    Forall2 (fun result image_url =>
               exists fields urls,
                 result = JDict fields /\
                 PyDict.get "urls" fields = Some (JDict urls) /\
                 PyDict.get "regular" urls = Some image_url)
            results image_urls ->
    omap (fun result => urls <-? getitem result "urls" ;; getitem urls "regular") results =
    Return image_urls.
Proof.
  induction results as [ | result results IH ]; intros image_urls H;
    inversion H as [ | ? image_url ? rest Hhead Htail ]; subst; [ reflexivity | ].
  destruct Hhead as (fields & urls & -> & Hu & Hr).
  cbn [omap getitem obind]. rewrite Hu. cbn [obind getitem]. rewrite Hr.
  cbn [obind]. rewrite (IH _ Htail). reflexivity.
Qed.

(** X10. With a configured key, a reply whose status is not an error status
    (400 to 599) and whose body is a JSON object with a list under
    ["results"], each element holding ["urls"]["regular"], gives those
    values in the order of the list, and prints nothing. *)
Theorem fetch_returns_regular_urls
    net access_key query count response body results image_urls :
  access_key <> placeholder_access_key ->
  get_search net ("Client-ID " ++ access_key) query count = Return response ->
  status_code response < 400 \/ 600 <= status_code response ->
  decoded_body response = Json (JDict body) ->
  PyDict.get "results" body = Some (JList results) ->
  Forall2 (fun result image_url =>
             exists fields urls,
               result = JDict fields /\
               PyDict.get "urls" fields = Some (JDict urls) /\
               PyDict.get "regular" urls = Some image_url)
          results image_urls ->
  fetch_image_urls_from_unsplash net access_key query count = (Return image_urls, []).
Proof.
  intros Hkey Hget Hstatus Hbody Hresults Hall.
  unfold fetch_image_urls_from_unsplash, search_image_urls.
  apply String.eqb_neq in Hkey. rewrite Hkey, Hget. cbn [obind].
  unfold raise_for_status.
  replace ((400 <=? status_code response) && (status_code response <? 500))%bool
    with false by (symmetry; apply andb_false_iff; lia).
  replace ((500 <=? status_code response) && (status_code response <? 600))%bool
    with false by (symmetry; apply andb_false_iff; lia).
  cbn [obind]. unfold response_json. rewrite Hbody. cbn [obind getitem].
  rewrite Hresults. cbn [obind iterate].
  now rewrite (omap_regular_urls Hall).
Qed.

Lemma fetch_returns_regular_urls_witness :
  fetch_image_urls_from_unsplash Sample.net "configured-key" "ok" 3 =
  (Return [JStr "living room"; JStr "dining room"], []).
Proof.
  apply (@fetch_returns_regular_urls Sample.net "configured-key" "ok" 3 Sample.search_reply
           [("total", JInt 2);
            ("results", JList [Sample.photo "living room"; Sample.photo "dining room"])]
           [Sample.photo "living room"; Sample.photo "dining room"]).
  - unfold placeholder_access_key. discriminate.
  - reflexivity.
  - left. reflexivity.
  - reflexivity.
  - reflexivity.
  - repeat constructor; eexists; eexists; repeat split; reflexivity.
Defined.

(** X11. With a configured key, the search returns the empty list and prints
    one line naming the query and the cause when the request raises a request
    exception, when the reply has a status from 400 to 599 (a client error
    below 500, a server error from there), and when the body of a reply
    with another status is not JSON. *)
Theorem fetch_failures_give_empty_list net access_key query count :
  access_key <> placeholder_access_key ->
  let failed := fun text : string =>
    fetch_image_urls_from_unsplash net access_key query count =
    (Return [],
     ["Error fetching images from Unsplash for query '" ++ query ++ "': " ++ text]) in
  (forall e,
      get_search net ("Client-ID " ++ access_key) query count = Raise e ->
      is_request_exception (exn_cls e) = true ->
      failed (exn_msg e)) /\
  (forall response,
      get_search net ("Client-ID " ++ access_key) query count = Return response ->
      400 <= status_code response < 600 ->
      failed (PyStr.str_of_int (status_code response)
              ++ (if status_code response <? 500 then " Client Error: "
                  else " Server Error: ")
              ++ reason response ++ " for url: " ++ url response)) /\
  (forall response complaint,
      get_search net ("Client-ID " ++ access_key) query count = Return response ->
      status_code response < 400 \/ 600 <= status_code response ->
      decoded_body response = NotJson complaint ->
      failed complaint).
Proof.
  intros Hkey failed. unfold failed.
  split; [ | split ].
  - intros e Hget Hreq.
    apply (@fetch_request_exception net access_key query count e Hkey); [ | exact Hreq ].
    unfold search_image_urls. now rewrite Hget.
  - intros response Hget Hstatus.
    destruct (status_code response <? 500) eqn:E.
    + apply Z.ltb_lt in E.
      apply (@fetch_request_exception net access_key query count
               {| exn_cls := HTTPError;
                  exn_msg := PyStr.str_of_int (status_code response) ++ " Client Error: "
                             ++ reason response ++ " for url: " ++ url response |} Hkey);
        [ | reflexivity ].
      unfold search_image_urls. rewrite Hget. cbn [obind]. unfold raise_for_status.
      replace ((400 <=? status_code response) && (status_code response <? 500))%bool
        with true by (symmetry; apply andb_true_iff; lia).
      reflexivity.
    + apply Z.ltb_ge in E.
      apply (@fetch_request_exception net access_key query count
               {| exn_cls := HTTPError;
                  exn_msg := PyStr.str_of_int (status_code response) ++ " Server Error: "
                             ++ reason response ++ " for url: " ++ url response |} Hkey);
        [ | reflexivity ].
      unfold search_image_urls. rewrite Hget. cbn [obind]. unfold raise_for_status.
      replace ((400 <=? status_code response) && (status_code response <? 500))%bool
        with false by (symmetry; apply andb_false_iff; lia).
      replace ((500 <=? status_code response) && (status_code response <? 600))%bool
        with true by (symmetry; apply andb_true_iff; lia).
      reflexivity.
  - intros response complaint Hget Hstatus Hbody.
    apply (@fetch_request_exception net access_key query count
             {| exn_cls := JSONDecodeError; exn_msg := complaint |} Hkey);
      [ | reflexivity ].
    unfold search_image_urls. rewrite Hget. cbn [obind]. unfold raise_for_status.
    replace ((400 <=? status_code response) && (status_code response <? 500))%bool
      with false by (symmetry; apply andb_false_iff; lia).
    replace ((500 <=? status_code response) && (status_code response <? 600))%bool
      with false by (symmetry; apply andb_false_iff; lia).
    cbn [obind]. unfold response_json. now rewrite Hbody.
Qed.

Lemma fetch_failures_give_empty_list_witness :
  fetch_image_urls_from_unsplash Sample.net "configured-key" "forbidden" 3 =
  (Return [],
   ["Error fetching images from Unsplash for query 'forbidden': 403 Client Error: "
    ++ "Forbidden for url: https://api.unsplash.com/search/photos"]).
Proof.
  assert (Hkey : "configured-key" <> placeholder_access_key)
    by (unfold placeholder_access_key; discriminate).
  destruct (@fetch_failures_give_empty_list Sample.net "configured-key" "forbidden" 3 Hkey)
    as (_ & Hstatus & _).
  refine (Hstatus _ eq_refl _). vm_compute. split; [ discriminate | reflexivity ].
Defined.

(** No request exception leaves the search, and nothing is printed before
    another exception leaves it. *)
Lemma fetch_never_raises_request_exception net access_key query count e out :
  fetch_image_urls_from_unsplash net access_key query count = (Raise e, out) ->
  is_request_exception (exn_cls e) = false /\ out = [].
Proof.
  unfold fetch_image_urls_from_unsplash.
  destruct (String.eqb access_key placeholder_access_key); [ discriminate | ].
  destruct (search_image_urls net access_key query count) as [urls | e0];
    [ discriminate | ].
  destruct (is_request_exception (exn_cls e0)) eqn:E; [ discriminate | ].
  now intros [= <- <-].
Qed.

(** ** [main] *)

Lemma use_case_with_placeholder_key host model which declared query output_file banner fs :
  let report := report_without_frames declared in
  let text := json_dumps host (JList [report_value report]) in
  write_file host output_file text = Saved ->
  use_case host placeholder_access_key model which declared query output_file banner fs =
  (Return tt, PyDict.set output_file text fs,
   ["Error: Please replace 'YOUR_UNSPLASH_ACCESS_KEY' with your actual Unsplash API key.";
    newline ++ "Analyzing video background with 0 frames...";
    "Analysis report saved to " ++ output_file;
    banner;
    json_dumps host (report_value report)]).
Proof.
  intros report text Hwrite. unfold use_case, pbind, of_io.
  rewrite fetch_with_placeholder_key. cbn [fst snd map].
  unfold analyze_video_background.
  rewrite (analysis_without_frames env_rules (network host which) model declared).
  cbn [fst snd]. fold report. unfold generate_report. fold text. rewrite Hwrite.
  reflexivity.
Qed.

(** X12. With the access key as shipped, and a model that loads and a disk
    that saves, [main] makes no request: it writes the three report files,
    each holding the one report of a run without frames (environment
    "Uncategorized", no object, flagged "Review Required"), and prints the
    seventeen lines below. *)
Theorem main_as_shipped host model fs :
  load_model host "yolov8n.pt" = Return model ->
  (forall path text, write_file host path text = Saved) ->
  let report_a := report_without_frames declared_data_a in
  let report_b := report_without_frames declared_data_b in
  let report_c := report_without_frames declared_data_c in
  let key_line :=
    "Error: Please replace 'YOUR_UNSPLASH_ACCESS_KEY' with your actual Unsplash API key." in
  let frames_line := newline ++ "Analyzing video background with 0 frames..." in
  main host placeholder_access_key fs =
  (PyDict.set "verification_report_C.json" (json_dumps host (JList [report_value report_c]))
     (PyDict.set "verification_report_B.json" (json_dumps host (JList [report_value report_b]))
        (PyDict.set "verification_report_A.json"
           (json_dumps host (JList [report_value report_a])) fs)),
   ["Initializing Intelligent Background Verification solution.";
    "Pre-trained YOLOv8n model loaded successfully.";
    key_line; frames_line; "Analysis report saved to verification_report_A.json";
    newline ++ "--- Verification Report A (Declared 'Home', Detected 'Shop') ---";
    json_dumps host (report_value report_a);
    key_line; frames_line; "Analysis report saved to verification_report_B.json";
    newline ++ "--- Verification Report B (Declared 'Shop', Detected 'Home') ---";
    json_dumps host (report_value report_b);
    key_line; frames_line; "Analysis report saved to verification_report_C.json";
    newline ++ "--- Verification Report C (Declared 'Home', Detected 'Home') ---";
    json_dumps host (report_value report_c)])
  /\ Forall (fun report =>
               detected_environment (analysis_results report) = "Uncategorized" /\
               detected_objects (analysis_results report) = [] /\
               risk_flag report = "Review Required")
            [report_a; report_b; report_c].
Proof.
  intros Hload Hdisk report_a report_b report_c key_line frames_line. split.
  - unfold main, main_body.
    unfold pbind at 1. unfold of_io at 1. rewrite Hload. cbn [lift fst snd].
    unfold pbind at 1. unfold of_io at 1. cbn [print fst snd].
    unfold pbind at 1. rewrite use_case_with_placeholder_key by apply Hdisk.
    unfold pbind at 1. rewrite use_case_with_placeholder_key by apply Hdisk.
    rewrite use_case_with_placeholder_key by apply Hdisk.
    reflexivity.
  - repeat constructor.
Qed.

Lemma main_as_shipped_witness :
  PyDict.keys (fst (main sample_host placeholder_access_key [])) =
    ["verification_report_A.json"; "verification_report_B.json";
     "verification_report_C.json"]
  /\ List.length (snd (main sample_host placeholder_access_key [])) = 17%nat.
Proof.
  destruct (@main_as_shipped sample_host Example.detector [] eq_refl (fun _ _ => eq_refl))
    as [Hmain _].
  rewrite Hmain. split; reflexivity.
Defined.

(** X13. When the analysis of use case A raises, [main] writes no file at
    all: use cases B and C are not attempted, and the last line printed is
    the one of the general handler with the exception's text. *)
Theorem main_stops_at_first_failure host access_key model image_urls printed e fs :
  load_model host "yolov8n.pt" = Return model ->
  fetch_image_urls_from_unsplash (network host UseCaseA) access_key
    "supermarket shelves, retail store" 3 = (Return image_urls, printed) ->
  first_failure (network host UseCaseA) model 0 (map (url_text host) image_urls) = Some e ->
  exists lines,
    main host access_key fs =
    (fs,
     ("Initializing Intelligent Background Verification solution."
      :: "Pre-trained YOLOv8n model loaded successfully."
      :: printed ++ lines
         ++ [("An unexpected error occurred: " ++ exn_msg e)%string])%list).
Proof.
  intros Hload Hfetch Hfail.
  pose proof (analysis_outcome env_rules (network host UseCaseA) model
                (map (url_text host) image_urls) declared_data_a) as H.
  rewrite Hfail in H. destruct H as (Hclass & out & Hrun).
  exists out. unfold main, main_body.
  unfold pbind at 1. unfold of_io at 1. rewrite Hload. cbn [lift fst snd].
  unfold pbind at 1. unfold of_io at 1. cbn [print fst snd].
  unfold pbind at 1. unfold use_case at 1.
  unfold pbind at 1. unfold of_io at 1. rewrite Hfetch. cbn [fst snd].
  unfold pbind at 1. unfold of_io at 1. unfold analyze_video_background.
  rewrite Hrun. cbn [fst snd].
  unfold handler_line. rewrite Hclass. cbn [app]. now rewrite <- app_assoc.
Qed.

Lemma main_stops_at_first_failure_witness :
  exists lines,
    main sample_host "configured-key" [] =
    ([],
     ("Initializing Intelligent Background Verification solution."
      :: "Pre-trained YOLOv8n model loaded successfully."
      :: lines ++ ["An unexpected error occurred: cannot identify image file"])%list).
Proof.
  destruct (@main_stops_at_first_failure sample_host "configured-key" Example.detector
              [JStr "corrupt"; JStr "kitchen"] []
              {| exn_cls := OtherException; exn_msg := "cannot identify image file" |} [])
    as (lines & Hmain).
  - reflexivity.
  - vm_compute. reflexivity.
  - vm_compute. reflexivity.
  - exists lines. exact Hmain.
Defined.

Lemma main_stops_when_the_model_fails_to_load host access_key e fs :
  load_model host "yolov8n.pt" = Raise e ->
  main host access_key fs =
  (fs, ["Initializing Intelligent Background Verification solution."; handler_line e]).
Proof.
  intros Hload. unfold main, main_body.
  unfold pbind at 1. unfold of_io at 1. now rewrite Hload.
Qed.







(** A request exception that reaches the handlers of [main] comes from the
    model loader or from the disk. *)
Lemma use_case_raises host access_key model which declared query output_file banner
      fs e fs' out :
  use_case host access_key model which declared query output_file banner fs =
    (Raise e, fs', out) ->
  is_request_exception (exn_cls e) = false \/
  exists text,
    write_file host output_file text = OpenFailed e \/
    exists left_on_disk, write_file host output_file text = WriteFailed e left_on_disk.
Proof.
  unfold use_case, pbind, of_io.
  destruct (fetch_image_urls_from_unsplash (network host which) access_key query 3)
    as [[image_urls | e1] o1] eqn:Hfetch; cbn [fst snd].
  - destruct (analyze_video_background (network host which) model
                (map (url_text host) image_urls) declared)
      as [[report | e2] o2] eqn:Hrun; cbn [fst snd].
    + unfold generate_report.
      destruct (write_file host output_file
                  (json_dumps host (JList [report_value report]))) eqn:Hw;
        cbn [fst snd print].
      * discriminate.
      * intros [= <- _ _]. right. eauto.
      * intros [= <- _ _]. right. eauto.
    + intros [= <- _ _]. left.
      apply (analysis_never_raises_request_exception _ _ _ _ _ Hrun).
  - intros [= <- _ _]. left.
    apply (fetch_never_raises_request_exception _ _ _ _ Hfetch).
Qed.

(** X15. No network failure reaches the handler of [main] for request
    exceptions: the search and the frame loop absorb every request exception,
    so one that leaves the [try] block of [main] was raised by the model
    loader or by the disk. *)
Theorem http_handler_not_reached_by_the_network host access_key fs fs' out e :
  main_body host access_key fs = (Raise e, fs', out) ->
  is_request_exception (exn_cls e) = true ->
  load_model host "yolov8n.pt" = Raise e \/
  exists path text,
    write_file host path text = OpenFailed e \/
    exists left_on_disk, write_file host path text = WriteFailed e left_on_disk.
Proof.
  intros Hbody Hreq. unfold main_body in Hbody.
  unfold pbind at 1 in Hbody. unfold of_io at 1 in Hbody.
  destruct (load_model host "yolov8n.pt") as [model | e0] eqn:Hload;
    cbn [lift fst snd] in Hbody.
  2:{ injection Hbody as <- _ _. now left. }
  right.
  unfold pbind at 1 in Hbody. unfold of_io at 1 in Hbody. cbn [print fst snd] in Hbody.
  unfold pbind at 1 in Hbody.
  match type of Hbody with
  | context [use_case ?h ?k ?m ?w ?d ?q ?p ?b fs] =>
      destruct (use_case h k m w d q p b fs) as [[[u | ea] fsa] oa] eqn:Ha
  end.
  2:{ injection Hbody as <- _ _.
      destruct (use_case_raises _ _ _ _ _ _ _ _ _ Ha) as [Hc | (text & Hw)];
        [ congruence | eauto ]. }
  unfold pbind at 1 in Hbody.
  match type of Hbody with
  | context [use_case ?h ?k ?m ?w ?d ?q ?p ?b fsa] =>
      destruct (use_case h k m w d q p b fsa) as [[[ub | eb] fsb] ob] eqn:Hb
  end.
  2:{ injection Hbody as <- _ _.
      destruct (use_case_raises _ _ _ _ _ _ _ _ _ Hb) as [Hc | (text & Hw)];
        [ congruence | eauto ]. }
  match type of Hbody with
  | context [use_case ?h ?k ?m ?w ?d ?q ?p ?b fsb] =>
      destruct (use_case h k m w d q p b fsb) as [[[uc | ec] fsc] oc] eqn:Hc
  end; [ discriminate | ].
  injection Hbody as <- _ _.
  destruct (use_case_raises _ _ _ _ _ _ _ _ _ Hc) as [Hcl | (text & Hw)];
    [ congruence | eauto ].
Qed.

Lemma http_handler_not_reached_by_the_network_witness :
  load_model offline_host "yolov8n.pt" =
    Raise {| exn_cls := ConnectionError; exn_msg := "cannot download yolov8n.pt" |} \/
  exists path text,
    write_file offline_host path text =
      OpenFailed {| exn_cls := ConnectionError; exn_msg := "cannot download yolov8n.pt" |} \/
    exists left_on_disk,
      write_file offline_host path text =
        WriteFailed {| exn_cls := ConnectionError; exn_msg := "cannot download yolov8n.pt" |}
                    left_on_disk.
Proof.
  exact (@http_handler_not_reached_by_the_network offline_host "configured-key" [] [] []
           {| exn_cls := ConnectionError; exn_msg := "cannot download yolov8n.pt" |}
           eq_refl eq_refl).
Defined.
